(** * Opening-hours resolution of [generate_ical.py]

    A shallow embedding of [get_opening_hours] and of the event loop of
    [create_calendar], over the JSON document the program receives, with
    Python's exceptions made explicit. *)

From Stdlib Require Import ZArith List String Ascii Bool Lia PrimFloat Sorted.
Import ListNotations.
Local Open Scope string_scope.
Local Open Scope Z_scope.

(** ** Exceptions and results *)

(** The exception classes the program's operations can raise. *)
Inductive exn : Type :=
| KeyError
| TypeError
| ValueError
| AttributeError
| OverflowError.

(** Outcome of running a piece of Python: a value, or a raised exception. *)
Inductive result (A : Type) : Type :=
| Return (a : A)
| Raise (e : exn).
Arguments Return {A} a.
Arguments Raise {A} e.

Definition bind {A B : Type} (m : result A) (k : A -> result B) : result B :=
  match m with
  | Return a => k a
  | Raise e => Raise e
  end.

Notation "x <- m ;; k" := (bind m (fun x => k))
  (at level 61, m at next level, right associativity).
Notation "' p <- m ;; k" := (bind m (fun x => match x with p => k end))
  (at level 61, p pattern, m at next level, right associativity).

(** ** JSON values, as [response.json()] builds them *)

#[local] Set Warnings "-register-all".

(** A [dict] keeps its items in insertion order; lookup takes the first
    binding of a key. *)
Inductive json : Type :=
| JNull
| JBool (b : bool)
| JInt (n : Z)
| JFloat (x : float)
| JString (s : string)
| JArray (items : list json)
| JObject (fields : list (string * json)).

(** [bool(v)]. *)
Definition truthy (v : json) : bool :=
  match v with
  | JNull => false
  | JBool b => b
  | JInt n => negb (n =? 0)
  | JFloat x => negb (PrimFloat.eqb x PrimFloat.zero)
  | JString s => negb (String.eqb s "")
  | JArray items => match items with [] => false | _ => true end
  | JObject fields => match fields with [] => false | _ => true end
  end.

Fixpoint lookup (k : string) (fields : list (string * json)) : option json :=
  match fields with
  | [] => None
  | (k', v) :: rest => if String.eqb k k' then Some v else lookup k rest
  end.

(** [v.get(k, default)]: only a dict has the method. *)
Definition get (v : json) (k : string) (default : json) : result json :=
  match v with
  | JObject fields =>
      match lookup k fields with
      | Some x => Return x
      | None => Return default
      end
  | _ => Raise AttributeError
  end.

(** [v[k]] with a string key: a missing key of a dict is a [KeyError], every
    other JSON value rejects a string subscript with a [TypeError]. *)
Definition subscript (v : json) (k : string) : result json :=
  match v with
  | JObject fields =>
      match lookup k fields with
      | Some x => Return x
      | None => Raise KeyError
      end
  | _ => Raise TypeError
  end.

Fixpoint chars (s : string) : list json :=
  match s with
  | EmptyString => []
  | String c rest => JString (String c EmptyString) :: chars rest
  end.

(** The items a [for] loop draws from [v]: the elements of a list, the keys of
    a dict, the characters of a string; anything else is not iterable. *)
Definition iterate (v : json) : result (list json) :=
  match v with
  | JArray items => Return items
  | JObject fields => Return (map (fun kv => JString (fst kv)) fields)
  | JString s => Return (chars s)
  | _ => Raise TypeError
  end.

(** ** Dates, times and the runtime environment *)

(** A [datetime.date], held as its proleptic Gregorian ordinal
    ([date.toordinal()], day 1 is 0001-01-01).  Python orders dates as it
    orders their ordinals. *)
Record date : Type := mkdate { toordinal : Z }.

Definition date_le (a b : date) : bool := toordinal a <=? toordinal b.

(** [date.max.toordinal()], the ordinal of 9999-12-31. *)
Definition MAXORDINAL : Z := 3652059.

(** [d + timedelta(days=n)]. *)
Definition date_add_days (d : date) (n : Z) : result date :=
  let o := toordinal d + n in
  if (1 <=? o) && (o <=? MAXORDINAL) then Return (mkdate o) else Raise OverflowError.

(** [date.weekday()]: Monday is 0, Sunday is 6. *)
Definition weekday (d : date) : Z := (toordinal d + 6) mod 7.

Definition US_PER_DAY : Z := 86400000000.

(** A [datetime.time]: microseconds since midnight, and the UTC offset (in
    microseconds) when the value carries a [tzinfo]. *)
Record time : Type := mktime { time_us : Z; time_tzinfo : option Z }.

(** What the program takes from the interpreter, the C library and pytz:
    - [abday w]: the abbreviated name of weekday [w] (numbered as
      [date.weekday()]) in the process's LC_TIME locale, which is what
      [strftime('%a')] prints;
    - [date_isoparse], [time_isoparse]: the parsers behind
      [date.fromisoformat] and [time.fromisoformat] on a [str], [None] standing
      for [ValueError];
    - [localize_utcoffset d us]: the UTC offset, in microseconds, that
      [TIMEZONE.localize] attaches to the naive wall-clock time [us] of day
      [d]. *)
Class Platform : Type := {
  abday : Z -> string;
  date_isoparse : string -> option date;
  time_isoparse : string -> option time;
  localize_utcoffset : date -> Z -> Z
}.

Definition lower_ascii (c : ascii) : ascii :=
  let n := nat_of_ascii c in
  if (Nat.leb 65 n && Nat.leb n 90)%bool then ascii_of_nat (n + 32) else c.

(** [str.lower()], on the ASCII letters day names are written in. *)
Fixpoint lower (s : string) : string :=
  match s with
  | EmptyString => EmptyString
  | String c rest => String (lower_ascii c) (lower rest)
  end.

Section Resolver.
Context {P : Platform}.

(** [date.fromisoformat(v)]. *)
Definition date_fromisoformat (v : json) : result date :=
  match v with
  | JString s =>
      match date_isoparse s with
      | Some d => Return d
      | None => Raise ValueError
      end
  | _ => Raise TypeError
  end.

(** [time.fromisoformat(v)]. *)
Definition time_fromisoformat (v : json) : result time :=
  match v with
  | JString s =>
      match time_isoparse s with
      | Some t => Return t
      | None => Raise ValueError
      end
  | _ => Raise TypeError
  end.

(** Line 20: [target_date.strftime('%a')[:2].lower()]. *)
Definition day_of_week_str (target_date : date) : string :=
  lower (substring 0 2 (abday (weekday target_date))).

(** ** [get_opening_hours] *)

(** What the function returns: [None], or the pair [(start, end)] of the day
    window's fields, unparsed. *)
Definition hours : Type := option (json * json).

(** [date.fromisoformat(entry['validity'][k])]. *)
Definition validity_bound (entry : json) (k : string) : result date :=
  validity <- subscript entry "validity" ;;
  bound <- subscript validity k ;;
  date_fromisoformat bound.

(** Lines 27-30 and 56-59: both bounds are read and parsed, then
    [valid_from <= target_date <= valid_to] is tested. *)
Definition in_validity (target_date : date) (entry : json) : result bool :=
  valid_from <- validity_bound entry "from" ;;
  valid_to <- validity_bound entry "to" ;;
  Return (date_le valid_from target_date && date_le target_date valid_to)%bool.

(** Lines 38-40 and 60-62: the day window of [entry] under the weekday key. *)
Definition day_window (key : string) (entry : json) : result hours :=
  day_hours <- get entry key JNull ;;
  cond <- (if truthy day_hours then get day_hours "from" JNull
           else Return day_hours) ;;
  if truthy cond then
    opening <- subscript day_hours "from" ;;
    closing <- subscript day_hours "to" ;;
    Return (Some (opening, closing))
  else Return None.

(** Lines 33-47: what a holiday entry that applies to the date returns. *)
Definition holiday_outcome (key : string) (entry : json) : result hours :=
  closed <- get entry "closed" (JBool false) ;;
  if truthy closed then Return None
  else day_window key entry.

(** Lines 60-64: what a regular entry that applies to the date returns. *)
Definition regular_outcome (key : string) (entry : json) : result hours :=
  day_window key entry.

(** The body of a [try] block: [Some r] when it executed [return r], [None]
    when it ran to its end. *)
Definition try_entry (outcome : json -> result hours)
    (target_date : date) (entry : json) : result (option hours) :=
  applies <- in_validity target_date entry ;;
  if applies : bool then r <- outcome entry ;; Return (Some r)
  else Return None.

(** Lines 25-50: the loop over the holiday entries.  [None] means the loop
    ran out of entries without returning. *)
Fixpoint holiday_loop (key : string) (target_date : date) (entries : list json)
    : result (option hours) :=
  match entries with
  | [] => Return None
  | entry :: rest =>
      match try_entry (holiday_outcome key) target_date entry with
      | Return (Some r) => Return (Some r)
      | Return None => holiday_loop key target_date rest
      | Raise ValueError | Raise TypeError => holiday_loop key target_date rest
      | Raise e => Raise e
      end
  end.

(** Lines 54-67: the loop over the regular entries. *)
Fixpoint regular_loop (key : string) (target_date : date) (entries : list json)
    : result (option hours) :=
  match entries with
  | [] => Return None
  | entry :: rest =>
      match try_entry (regular_outcome key) target_date entry with
      | Return (Some r) => Return (Some r)
      | Return None => regular_loop key target_date rest
      | Raise ValueError | Raise TypeError => regular_loop key target_date rest
      | Raise e => Raise e
      end
  end.

Definition get_opening_hours (pool : json) (target_date : date) : result hours :=
  let day_of_week_str := day_of_week_str target_date in
  business_hours <- get pool "businesshours" (JObject []) ;;
  holiday_hours <- get business_hours "holiday_bhpool" (JArray []) ;;
  holiday_entries <- iterate holiday_hours ;;
  found <- holiday_loop day_of_week_str target_date holiday_entries ;;
  match found with
  | Some r => Return r
  | None =>
      regular_hours <- get business_hours "usually_bhpool" (JArray []) ;;
      regular_entries <- iterate regular_hours ;;
      found <- regular_loop day_of_week_str target_date regular_entries ;;
      match found with
      | Some r => Return r
      | None => Return None
      end
  end.

(** ** The matcher, on its own *)

(** The rule matcher the two loops share (lines 25-30 and 54-59), on its
    own: the entry at which a loop enters its [if], [None] when the loop runs
    out of entries. *)
Fixpoint match_rule (target_date : date) (entries : list json)
    : result (option json) :=
  match entries with
  | [] => Return None
  | entry :: rest =>
      match in_validity target_date entry with
      | Return true => Return (Some entry)
      | Return false => match_rule target_date rest
      | Raise ValueError | Raise TypeError => match_rule target_date rest
      | Raise e => Raise e
      end
  end.

(** What a loop does once the matcher has settled on an entry. *)
Definition settle (outcome : json -> result hours) (found : option json)
    : result (option hours) :=
  match found with
  | Some entry => r <- outcome entry ;; Return (Some r)
  | None => Return None
  end.

(** The entries a loop header draws from one tier of [pool] (lines 21, 24-25
    and 53-54). *)
Definition tier (pool : json) (name : string) : result (list json) :=
  business_hours <- get pool "businesshours" (JObject []) ;;
  rules <- get business_hours name (JArray []) ;;
  iterate rules.

(** The entry's validity range contains the date: both bounds parse and
    [valid_from <= target_date <= valid_to]. *)
Definition contains_date (target_date : date) (entry : json) : bool :=
  match in_validity target_date entry with
  | Return b => b
  | Raise _ => false
  end.

(** The entry carries a validity record with both of its bounds. *)
Definition has_range_fields (entry : json) : bool :=
  match subscript entry "validity" with
  | Return validity =>
      match subscript validity "from", subscript validity "to" with
      | Return _, Return _ => true
      | _, _ => false
      end
  | Raise _ => false
  end.

(** ** The event loop of [create_calendar] *)

(** An aware [datetime]: civil date, wall-clock microseconds since midnight,
    and the UTC offset of its [tzinfo] in microseconds. *)
Record datetime : Type :=
  mkdatetime { dt_date : date; dt_us : Z; dt_utcoffset : Z }.

(** The instant an aware datetime denotes, in microseconds. *)
Definition utc_instant (dt : datetime) : Z :=
  toordinal (dt_date dt) * US_PER_DAY + dt_us dt - dt_utcoffset dt.

(** [a <= b] on aware datetimes.  Python compares the wall-clock fields when
    the two UTC offsets are equal and the instants otherwise; with equal
    offsets the two orders coincide. *)
Definition datetime_le (a b : datetime) : bool :=
  utc_instant a <=? utc_instant b.

(** [a - b] on aware datetimes, in microseconds. *)
Definition datetime_sub (a b : datetime) : Z := utc_instant a - utc_instant b.

(** [dt + timedelta(days=1)]: the wall clock moves, the [tzinfo] stays. *)
Definition datetime_add_day (dt : datetime) : result datetime :=
  d <- date_add_days (dt_date dt) 1 ;;
  Return (mkdatetime d (dt_us dt) (dt_utcoffset dt)).

(** [TIMEZONE.localize(datetime.combine(d, t))]: pytz refuses a datetime that
    already carries a [tzinfo]. *)
Definition localize (d : date) (t : time) : result datetime :=
  match time_tzinfo t with
  | Some _ => Raise ValueError
  | None => Return (mkdatetime d (time_us t) (localize_utcoffset d (time_us t)))
  end.

(** The fields the program sets on an [Event], [dtstamp] (the clock's reading)
    apart; [location] keeps the three values its f-string interpolates, [uid]
    the pool id and the date. *)
Record Event : Type := mkEvent {
  summary : json;
  dtstart : datetime;
  dtend : datetime;
  location : json * json * json;
  uid : json * date
}.

(** What a run has produced so far: the calendar's events, the pool names
    printed as being processed, and the (pool name, date) pairs of the
    "Skipping invalid time" lines on stderr. *)
Record output : Type := mkoutput {
  cal : list Event;
  stdout : list json;
  stderr : list (json * date)
}.

Definition DAYS_TO_GENERATE : nat := 14.

(** Lines 119-136: the body of the [try] block, up to the finished event. *)
Definition build_event (pool pool_name : json) (loc : json * json * json)
    (current_date : date) (start_str end_str : json) : result Event :=
  start_time <- time_fromisoformat start_str ;;
  end_time <- time_fromisoformat end_str ;;
  dt_start <- localize current_date start_time ;;
  dt_end <- localize current_date end_time ;;
  dt_end <- (if datetime_le dt_end dt_start then datetime_add_day dt_end
             else Return dt_end) ;;
  id <- subscript pool "id" ;;
  Return (mkEvent pool_name dt_start dt_end loc (id, current_date)).

(** Lines 113-140: one turn of the loop over the days. *)
Definition day_step (pool pool_name : json) (loc : json * json * json)
    (today : date) (out : output) (i : Z) : result output :=
  current_date <- date_add_days today i ;;
  found <- get_opening_hours pool current_date ;;
  match found with
  | Some (start_str, end_str) =>
      match build_event pool pool_name loc current_date start_str end_str with
      | Return event =>
          Return (mkoutput (cal out ++ [event]) (stdout out) (stderr out))
      | Raise ValueError =>
          Return (mkoutput (cal out) (stdout out)
                    (stderr out ++ [(pool_name, current_date)]))
      | Raise e => Raise e
      end
  | None => Return out
  end.

Fixpoint for_each {A B : Type} (body : A -> B -> result A) (items : list B)
    (a : A) : result A :=
  match items with
  | [] => Return a
  | x :: rest => a' <- body a x ;; for_each body rest a'
  end.

(** [range(n)]. *)
Definition range (n : nat) : list Z := map Z.of_nat (seq 0 n).

(** [pool_type != 'Hallenbad']. *)
Definition is_hallenbad (pool_type : json) : bool :=
  match pool_type with
  | JString s => String.eqb s "Hallenbad"
  | _ => false
  end.

(** Lines 97-140: one turn of the loop over the pools. *)
Definition pool_step (today : date) (out : output) (pool : json) : result output :=
  lookups <- get pool "lookups" (JObject []) ;;
  type <- get lookups "type" (JObject []) ;;
  pool_type <- get type "value" JNull ;;
  if negb (is_hallenbad pool_type) then Return out
  else
    pool_name <- get pool "name" JNull ;;
    if negb (truthy pool_name) then Return out
    else
      let out := mkoutput (cal out) (stdout out ++ [pool_name]) (stderr out) in
      building <- get pool "building" (JObject []) ;;
      street <- get building "street" (JString "") ;;
      zip_code <- get building "zip_code" (JString "") ;;
      city <- get building "city" (JString "") ;;
      for_each (day_step pool pool_name (street, zip_code, city) today)
        (range DAYS_TO_GENERATE) out.

(** Lines 94-140 of [create_calendar], from the parsed response [pools] and
    [date.today()]: the events added to the calendar and the lines printed.
    Fetching the document and writing the file are left to the caller. *)
Definition create_calendar (pools : json) (today : date) : result output :=
  items <- iterate pools ;;
  for_each (pool_step today) items (mkoutput [] [] []).

(** ** Vocabulary for the properties of the loops *)

Definition is_object (v : json) : bool :=
  match v with
  | JObject _ => true
  | _ => false
  end.

(** The entry ends a loop's search: its range contains the date, or reading
    its range raises [KeyError]. *)
Definition stops (target_date : date) (entry : json) : bool :=
  match in_validity target_date entry with
  | Return b => b
  | Raise KeyError => true
  | Raise _ => false
  end.

(** Lines 98-104: the pool is passed over by one of the two [continue]s. *)
Definition skipped (pool : json) : bool :=
  match (lookups <- get pool "lookups" (JObject []) ;;
         type <- get lookups "type" (JObject []) ;;
         get type "value" JNull) with
  | Return pool_type =>
      if is_hallenbad pool_type then
        match get pool "name" JNull with
        | Return pool_name => negb (truthy pool_name)
        | Raise _ => false
        end
      else true
  | Raise _ => false
  end.

(** [pool.get('name')], [None] where there is none to get. *)
Definition name_of (pool : json) : json :=
  match get pool "name" JNull with
  | Return pool_name => pool_name
  | Raise _ => JNull
  end.

(** A [for] loop can run over the value. *)
Definition iterable (v : json) : bool :=
  match iterate v with
  | Return _ => true
  | Raise _ => false
  end.

(** What the loop guarantees of an event it made for [pool]: the pool's name
    and id, a start on one of the days of the window, on which the pool
    resolved to a pair of times, and an end either later on the same civil day
    or on the next. *)
Definition event_of (today : date) (pool : json) (event : Event) : Prop :=
  summary event = name_of pool
  /\ (exists id, subscript pool "id" = Return id
                 /\ uid event = (id, dt_date (dtstart event)))
  /\ toordinal today <= toordinal (dt_date (dtstart event))
       < toordinal today + Z.of_nat DAYS_TO_GENERATE
  /\ (exists start_str end_str start_time,
        get_opening_hours pool (dt_date (dtstart event))
          = Return (Some (start_str, end_str))
        /\ time_fromisoformat start_str = Return start_time
        /\ dt_us (dtstart event) = time_us start_time)
  /\ ((dt_date (dtend event) = dt_date (dtstart event)
       /\ utc_instant (dtstart event) < utc_instant (dtend event))
      \/ dt_date (dtend event) = mkdate (toordinal (dt_date (dtstart event)) + 1)).

(** Ascending lists of day numbers that stay below a bound. *)
Definition below (bound : Z) (days : list Z) : Prop :=
  StronglySorted Z.lt days /\ Forall (fun z => z < bound) days.

Definition no_output : output := mkoutput [] [] [].

(** What two stretches of a run produce, one after the other. *)
Definition output_app (a b : output) : output :=
  mkoutput (cal a ++ cal b) (stdout a ++ stdout b) (stderr a ++ stderr b).

End Resolver.

(** ** A concrete environment: CPython, Europe/Berlin *)

Module CPython.

Definition digit (c : ascii) : option Z :=
  let n := Z.of_nat (nat_of_ascii c) in
  if (48 <=? n) && (n <=? 57) then Some (n - 48) else None.

(** The value of a run of ASCII digits; [None] if one is not a digit. *)
Fixpoint number (acc : Z) (cs : list ascii) : option Z :=
  match cs with
  | [] => Some acc
  | c :: rest =>
      match digit c with
      | Some n => number (10 * acc + n) rest
      | None => None
      end
  end.

Definition is_leap (y : Z) : bool :=
  (y mod 4 =? 0) && (negb (y mod 100 =? 0) || (y mod 400 =? 0)).

Definition days_in_month (y m : Z) : Z :=
  if m =? 2 then (if is_leap y then 29 else 28)
  else if (m =? 4) || (m =? 6) || (m =? 9) || (m =? 11) then 30
  else 31.

Definition days_before_year (y : Z) : Z :=
  let p := y - 1 in p * 365 + p / 4 - p / 100 + p / 400.

Definition days_before_month (y m : Z) : Z :=
  fold_right Z.add 0
    (map (fun k => days_in_month y (Z.of_nat k)) (seq 1 (Z.to_nat (m - 1)))).

(** [date(y, m, d)], as its ordinal; [None] for a day that does not exist. *)
Definition ymd (y m d : Z) : option date :=
  if (1 <=? y) && (y <=? 9999) && (1 <=? m) && (m <=? 12)
     && (1 <=? d) && (d <=? days_in_month y m)
  then Some (mkdate (days_before_year y + days_before_month y m + d))
  else None.

(** [date.fromisoformat] on the form [YYYY-MM-DD]. *)
Definition date_isoparse (s : string) : option date :=
  match list_ascii_of_string s with
  | [y1; y2; y3; y4; "-"%char; m1; m2; "-"%char; d1; d2] =>
      match number 0 [y1; y2; y3; y4], number 0 [m1; m2], number 0 [d1; d2] with
      | Some y, Some m, Some d => ymd y m d
      | _, _, _ => None
      end
  | _ => None
  end.

Definition hms (h m s : Z) : option time :=
  if (h <? 24) && (m <? 60) && (s <? 60)
  then Some (mktime (((h * 60 + m) * 60 + s) * 1000000) None)
  else None.

(** [time.fromisoformat] on the forms [HH:MM] and [HH:MM:SS], the ones the
    worked examples below use; the longer forms with a fraction or a UTC
    offset are not covered by this instance. *)
Definition time_isoparse (s : string) : option time :=
  match list_ascii_of_string s with
  | [h1; h2; ":"%char; m1; m2] =>
      match number 0 [h1; h2], number 0 [m1; m2] with
      | Some h, Some m => hms h m 0
      | _, _ => None
      end
  | [h1; h2; ":"%char; m1; m2; ":"%char; s1; s2] =>
      match number 0 [h1; h2], number 0 [m1; m2], number 0 [s1; s2] with
      | Some h, Some m, Some s => hms h m s
      | _, _, _ => None
      end
  | _ => None
  end.

(** Abbreviated day names of the C locale, the one a Python process formats
    dates in unless it calls [locale.setlocale]. *)
Definition abday_C (w : Z) : string :=
  nth (Z.to_nat w) ["Mon"; "Tue"; "Wed"; "Thu"; "Fri"; "Sat"; "Sun"] "".

(** Abbreviated day names of the de_DE locale. *)
Definition abday_de_DE (w : Z) : string :=
  nth (Z.to_nat w) ["Mo"; "Di"; "Mi"; "Do"; "Fr"; "Sa"; "So"] "".

(** Ordinal of the last Sunday of month [m] (a month of 31 days) of year [y]. *)
Definition last_sunday (y m : Z) : Z :=
  let last := days_before_year y + days_before_month y m + 31 in
  last - (last mod 7).

(** The year an ordinal falls in. *)
Definition year_of (o : Z) : Z :=
  let y := 400 * o / 146097 in
  if days_before_year (y + 2) <? o then y + 2
  else if days_before_year (y + 1) <? o then y + 1
  else if days_before_year y <? o then y
  else y - 1.

Definition HOUR : Z := 3600000000.

(** The offset pytz's [Europe/Berlin] attaches in [localize] (with its default
    [is_dst=False]) under the rule in force since 1996: summer time runs from
    the last Sunday of March, 02:00 wall clock, to the last Sunday of October,
    03:00 wall clock.  The skipped hour of the March day and the repeated hour
    of the October day both get the winter offset. *)
Definition berlin_utcoffset (d : date) (us : Z) : Z :=
  let o := toordinal d in
  let y := year_of o in
  let spring := last_sunday y 3 in
  let autumn := last_sunday y 10 in
  if (o <? spring) || (autumn <? o) then HOUR
  else if o =? spring then (if us <? 3 * HOUR then HOUR else 2 * HOUR)
  else if o =? autumn then (if us <? 2 * HOUR then 2 * HOUR else HOUR)
  else 2 * HOUR.

(** The program as it runs from the command line. *)
Definition C_locale : Platform :=
  Build_Platform abday_C date_isoparse time_isoparse berlin_utcoffset.

(** The same program in a process whose LC_TIME locale is de_DE. *)
Definition de_DE_locale : Platform :=
  Build_Platform abday_de_DE date_isoparse time_isoparse berlin_utcoffset.

End CPython.


(** ** Worked schedules *)

Module Scenarios.

Definition window (opening closing : string) : json :=
  JObject [("from", JString opening); ("to", JString closing)].

Definition rule (valid_from valid_to : string) (rest : list (string * json)) : json :=
  JObject (("validity", JObject [("from", JString valid_from);
                                 ("to", JString valid_to)]) :: rest).

Definition bath (holiday regular : list json) : json :=
  JObject [("id", JInt 7); ("name", JString "Leo-Vetter-Bad");
           ("lookups", JObject [("type", JObject [("value", JString "Hallenbad")])]);
           ("building", JObject [("street", JString "Landhausstr. 192");
                                 ("zip_code", JString "70188");
                                 ("city", JString "Stuttgart")]);
           ("businesshours", JObject [("holiday_bhpool", JArray holiday);
                                      ("usually_bhpool", JArray regular)])].

(** 2024-06-10 was a Monday. *)
Definition monday : date := mkdate 739047.
Definition tuesday : date := mkdate 739048.
Definition wednesday : date := mkdate 739049.

Definition all_year (rest : list (string * json)) : json :=
  rule "2024-01-01" "2024-12-31" rest.

(** Scenario A: a closed holiday period over a regular Monday schedule. *)
Definition closure : json := rule "2024-06-10" "2024-06-20" [("closed", JBool true)].
Definition bath_A : json :=
  bath [closure] [all_year [("mo", window "08:00" "20:00")]].

(** Scenario B: no holiday entries, Monday hours only. *)
Definition mondays_only : json := all_year [("mo", window "06:30" "21:00")].
Definition bath_B : json := bath [] [mondays_only].

(** Scenario C: a one-day holiday entry with hours of its own. *)
Definition short_day : json :=
  rule "2024-06-12" "2024-06-12"
    [("closed", JBool false); ("we", window "10:00" "14:00")].
Definition long_days : json := all_year [("we", window "06:00" "22:00")].

(** A holiday period that is not closed and lists Monday hours only. *)
Definition quiet_period : json :=
  rule "2024-06-10" "2024-06-20"
    [("closed", JBool false); ("mo", window "10:00" "12:00")].
Definition every_day : json :=
  all_year [("mo", window "06:00" "22:00"); ("tu", window "06:00" "22:00");
            ("we", window "06:00" "22:00")].
Definition bath_quiet : json := bath [quiet_period] [every_day].

(** Day windows whose ['from'] is there but empty or null. *)
Definition blank_tuesday : json :=
  rule "2024-06-10" "2024-06-20"
    [("tu", JObject [("from", JString ""); ("to", JString "20:00")])].
Definition null_tuesday : json :=
  all_year [("tu", JObject [("from", JNull); ("to", JNull)])].
Definition bath_blank : json := bath [blank_tuesday] [every_day].
Definition bath_null : json := bath [] [null_tuesday].

(** Scenario D: a holiday entry whose start is not a date. *)
Definition garbled : json := rule "not-a-date" "2024-12-31" [("closed", JBool true)].
Definition bath_D : json := bath [garbled] [long_days].

(** A schedule keyed by the German day names. *)
Definition bath_dienstag : json :=
  bath [] [all_year [("di", window "06:00" "22:00")]].

(** A holiday entry whose validity record has no ['from']. *)
Definition open_ended : json :=
  JObject [("validity", JObject [("to", JString "2024-12-31")]);
           ("closed", JBool true)].
Definition bath_open_ended : json := bath [open_ended] [long_days].

(** A Wednesday window whose closing time is null, and one whose closing time
    is a string that is not a time. *)
Definition bath_null_close : json :=
  bath [] [all_year [("we", JObject [("from", JString "08:00"); ("to", JNull)])]].
Definition bath_late : json :=
  bath [] [all_year [("we", JObject [("from", JString "08:00");
                                     ("to", JString "late")])]].

(** The days the clocks change in 2024, both Sundays. *)
Definition spring_forward : date := mkdate 738976.
Definition fall_back : date := mkdate 739186.

Definition bath_early : json :=
  bath [] [all_year [("su", window "03:30" "02:45")]].
Definition bath_night : json :=
  bath [] [all_year [("su", window "23:30" "00:15")]].

Definition name : json := JString "Leo-Vetter-Bad".

Definition address : json * json * json :=
  (JString "Landhausstr. 192", JString "70188", JString "Stuttgart").

(** A Wednesday window without its closing time, and a Wednesday given as a
    text instead of a window. *)
Definition bath_no_close : json :=
  bath [] [all_year [("we", JObject [("from", JString "08:00")])]].
Definition bath_text_day : json :=
  bath [] [all_year [("we", JString "geschlossen")]].

(** A bath whose holiday tier is null. *)
Definition bath_null_tier : json :=
  JObject [("businesshours", JObject [("holiday_bhpool", JNull);
                                      ("usually_bhpool", JArray [long_days])])].

(** A bath record without its id. *)
Definition bath_no_id : json :=
  JObject [("name", JString "Leo-Vetter-Bad");
           ("lookups", JObject [("type", JObject [("value", JString "Hallenbad")])]);
           ("businesshours", JObject [("usually_bhpool", JArray [long_days])])].

(** Items that are not dicts. *)
Definition litter : list json := [JString "x"; JNull; JInt 3; JArray []].

End Scenarios.

(** * Properties *)

Section ResolverFacts.
Context {P : Platform}.

(** A day window lookup can fail only on a missing ['to'] or on a value that
    is not a dict: never with an exception the loops catch. *)
Lemma day_window_raises (key : string) (entry : json) (e : exn) :
  day_window key entry = Raise e -> e = KeyError \/ e = AttributeError.
Proof.
  unfold day_window, get.
  destruct entry; simpl; try (intros [= <-]; now right).
  destruct (lookup key fields) as [day_hours|]; simpl; [|discriminate].
  destruct (truthy day_hours) eqn:Ht; simpl.
  - destruct day_hours; simpl; try (intros [= <-]; now right).
    destruct (lookup "from" fields0) as [opening|]; simpl; [|discriminate].
    destruct (truthy opening); simpl; [|discriminate].
    destruct (lookup "to" fields0); simpl; [discriminate|].
    intros [= <-]; now left.
  - rewrite Ht. discriminate.
Qed.

Lemma holiday_outcome_raises (key : string) (entry : json) (e : exn) :
  holiday_outcome key entry = Raise e -> e = KeyError \/ e = AttributeError.
Proof.
  unfold holiday_outcome, get.
  destruct entry; simpl; try (intros [= <-]; now right).
  destruct (lookup "closed" fields) as [closed|]; simpl.
  - destruct (truthy closed); [discriminate|]. apply day_window_raises.
  - apply day_window_raises.
Qed.

(** The holiday loop is the matcher followed by the holiday outcome. *)
Lemma holiday_loop_match (key : string) (d : date) (entries : list json) :
  holiday_loop key d entries =
  found <- match_rule d entries ;; settle (holiday_outcome key) found.
Proof.
  induction entries as [|entry rest IH]; simpl; [reflexivity|].
  unfold try_entry.
  destruct (in_validity d entry) as [[|]|[]]; simpl; auto.
  destruct (holiday_outcome key entry) as [r|e] eqn:Ho; simpl; [reflexivity|].
  destruct (holiday_outcome_raises _ _ _ Ho) as [-> | ->]; reflexivity.
Qed.

(** The regular loop is the matcher followed by the regular outcome. *)
Lemma regular_loop_match (key : string) (d : date) (entries : list json) :
  regular_loop key d entries =
  found <- match_rule d entries ;; settle (regular_outcome key) found.
Proof.
  induction entries as [|entry rest IH]; simpl; [reflexivity|].
  unfold try_entry.
  destruct (in_validity d entry) as [[|]|[]]; simpl; auto.
  unfold regular_outcome.
  destruct (day_window key entry) as [r|e] eqn:Ho; simpl; [reflexivity|].
  destruct (day_window_raises _ _ _ Ho) as [-> | ->]; reflexivity.
Qed.

(** The whole function, read tier by tier through the matcher. *)
Lemma get_opening_hours_tiers (pool : json) (d : date) :
  get_opening_hours pool d =
  holiday <- tier pool "holiday_bhpool" ;;
  found <- match_rule d holiday ;;
  match found with
  | Some entry => holiday_outcome (day_of_week_str d) entry
  | None =>
      regular <- tier pool "usually_bhpool" ;;
      found <- match_rule d regular ;;
      match found with
      | Some entry => regular_outcome (day_of_week_str d) entry
      | None => Return None
      end
  end.
Proof.
  unfold get_opening_hours, tier.
  destruct (get pool "businesshours" (JObject [])) as [bh|]; simpl; [|reflexivity].
  destruct (get bh "holiday_bhpool" (JArray [])) as [hh|]; simpl; [|reflexivity].
  destruct (iterate hh) as [holiday|]; simpl; [|reflexivity].
  rewrite holiday_loop_match.
  destruct (match_rule d holiday) as [[entry|]|]; simpl; [| |reflexivity].
  - destruct (holiday_outcome (day_of_week_str d) entry); reflexivity.
  - destruct (get bh "usually_bhpool" (JArray [])) as [rh|]; simpl; [|reflexivity].
    destruct (iterate rh) as [regular|]; simpl; [|reflexivity].
    rewrite regular_loop_match.
    destruct (match_rule d regular) as [[entry|]|]; simpl; try reflexivity.
    destruct (regular_outcome (day_of_week_str d) entry); reflexivity.
Qed.

(** An entry with both range fields never makes the matcher fail. *)
Lemma has_range_fields_no_key_error (d : date) (entry : json) :
  has_range_fields entry = true ->
  in_validity d entry = Return (contains_date d entry) \/
  (contains_date d entry = false /\
   (in_validity d entry = Raise ValueError \/ in_validity d entry = Raise TypeError)).
Proof.
  unfold has_range_fields, contains_date, in_validity, validity_bound.
  destruct (subscript entry "validity") as [validity|]; simpl; [|discriminate].
  destruct (subscript validity "from") as [lo|]; simpl; [|discriminate].
  destruct (subscript validity "to") as [hi|]; simpl; [|discriminate].
  intros _.
  unfold date_fromisoformat.
  destruct lo; simpl; auto.
  destruct (date_isoparse s); simpl; auto.
  destruct hi; simpl; auto.
  destruct (date_isoparse s0); simpl; auto.
Qed.

(** On entries that all carry their range fields, the matcher is [find]. *)
Lemma match_rule_find (d : date) (entries : list json) :
  Forall (fun entry => has_range_fields entry = true) entries ->
  match_rule d entries = Return (find (contains_date d) entries).
Proof.
  induction 1 as [|entry rest Hentry _ IH]; simpl; [reflexivity|].
  destruct (has_range_fields_no_key_error d entry Hentry) as [-> | [-> [-> | ->]]];
    try exact IH.
  destruct (contains_date d entry); [reflexivity | exact IH].
Qed.


Lemma day_window_closed (key : string) (entry day_hours : json) :
  get entry key JNull = Return day_hours ->
  (truthy day_hours = false \/
   exists opening, get day_hours "from" JNull = Return opening /\
                   truthy opening = false) ->
  day_window key entry = Return None.
Proof.
  intros Hget Hno. unfold day_window. rewrite Hget. cbn [bind].
  destruct Hno as [Hfalsy | [opening [Hfrom Hfalsy]]].
  - rewrite Hfalsy. cbn [bind]. now rewrite Hfalsy.
  - destruct (truthy day_hours) eqn:Hd; cbn [bind].
    + rewrite Hfrom. cbn [bind]. now rewrite Hfalsy.
    + now rewrite Hd.
Qed.

(** A window with an open time but no ['to'] key is read all the same, and
    the read raises [KeyError]. *)
Lemma day_window_without_to (key : string) (entry : json)
    (fields : list (string * json)) (opening : json) :
  get entry key JNull = Return (JObject fields) ->
  lookup "from" fields = Some opening ->
  truthy opening = true ->
  lookup "to" fields = None ->
  day_window key entry = Raise KeyError.
Proof.
  intros Hget Hfrom Htruthy Hto. unfold day_window. rewrite Hget. simpl.
  destruct fields as [|field fields']; [discriminate|].
  cbn [bind get subscript]. rewrite Hfrom. cbn [bind]. rewrite Htruthy, Hto.
  reflexivity.
Qed.


End ResolverFacts.

(** ** The rule matcher *)

(** C4.  On an ordered list of rule entries that carry their validity range,
    the matcher returns the first entry in list order whose range contains the
    date, and none when no entry does or the list is empty.  A range contains
    the date when [from <= date <= to], both ends included.  Both loops of
    [get_opening_hours] are this matcher followed by the tier's outcome. *)
Theorem matcher_first_in_range {P : Platform} (d : date) (entries : list json) :
  Forall (fun entry => has_range_fields entry = true) entries ->
  match_rule d entries = Return (find (contains_date d) entries)
  /\ match_rule d [] = Return None
  /\ ((forall entry, In entry entries -> contains_date d entry = false) ->
      match_rule d entries = Return None)
  /\ (forall entry lo hi,
        validity_bound entry "from" = Return lo ->
        validity_bound entry "to" = Return hi ->
        (contains_date d entry = true <->
         toordinal lo <= toordinal d <= toordinal hi))
  /\ (forall key,
        holiday_loop key d entries =
          settle (holiday_outcome key) (find (contains_date d) entries)
        /\ regular_loop key d entries =
          settle (regular_outcome key) (find (contains_date d) entries)).
Proof.
  intros Hfields. pose proof (match_rule_find d entries Hfields) as Hfind.
  split; [exact Hfind|]. split; [reflexivity|]. split; [|split].
  - intros Hnone. rewrite Hfind.
    destruct (find (contains_date d) entries) as [entry|] eqn:Hf; [|reflexivity].
    apply find_some in Hf. destruct Hf as [Hin Hc].
    rewrite (Hnone entry Hin) in Hc. discriminate.
  - intros entry lo hi Hlo Hhi.
    unfold contains_date, in_validity. rewrite Hlo, Hhi. cbn [bind].
    unfold date_le. lia.
  - intros key. rewrite holiday_loop_match, regular_loop_match, Hfind.
    split; reflexivity.
Qed.

Lemma matcher_first_in_range_witness :
  match_rule (P := CPython.C_locale) Scenarios.wednesday
    [Scenarios.garbled; Scenarios.short_day; Scenarios.long_days]
  = Return (Some Scenarios.short_day).
Proof.
  refine (eq_trans (proj1 (matcher_first_in_range (P := CPython.C_locale)
                             Scenarios.wednesday _ _)) _).
  - repeat constructor.
  - vm_compute. reflexivity.
Defined.

(** ** Resolution *)



(** C2.  When the holiday entry that applies to the date has a true [closed]
    flag, the result is [None] (closed), whatever the regular tier holds. *)
Theorem closed_override_is_closed {P : Platform} (pool : json) (d : date)
    (holiday : list json) (entry closed : json) :
  tier pool "holiday_bhpool" = Return holiday ->
  match_rule d holiday = Return (Some entry) ->
  get entry "closed" (JBool false) = Return closed ->
  truthy closed = true ->
  get_opening_hours pool d = Return None.
Proof.
  intros Htier Hmatch Hclosed Htrue.
  rewrite get_opening_hours_tiers, Htier. cbn [bind]. rewrite Hmatch. cbn [bind].
  unfold holiday_outcome. rewrite Hclosed. cbn [bind]. now rewrite Htrue.
Qed.

Lemma closed_override_is_closed_witness :
  get_opening_hours (P := CPython.C_locale) Scenarios.bath_A Scenarios.wednesday
  = Return None.
Proof.
  apply (closed_override_is_closed (P := CPython.C_locale)
           Scenarios.bath_A Scenarios.wednesday
           [Scenarios.closure] Scenarios.closure (JBool true));
    vm_compute; reflexivity.
Defined.

(** C3.  When the holiday entry that applies to the date is not closed and
    has no window with an open time under the date's weekday key, the result
    is [None] (closed): the regular tier is not tried. *)
Theorem override_without_hours_is_closed {P : Platform} (pool : json) (d : date)
    (holiday : list json) (entry closed day_hours : json) :
  tier pool "holiday_bhpool" = Return holiday ->
  match_rule d holiday = Return (Some entry) ->
  get entry "closed" (JBool false) = Return closed ->
  truthy closed = false ->
  get entry (day_of_week_str d) JNull = Return day_hours ->
  (truthy day_hours = false \/
   exists opening, get day_hours "from" JNull = Return opening /\
                   truthy opening = false) ->
  get_opening_hours pool d = Return None.
Proof.
  intros Htier Hmatch Hclosed Hopen Hday Hno.
  rewrite get_opening_hours_tiers, Htier. cbn [bind]. rewrite Hmatch. cbn [bind].
  unfold holiday_outcome. rewrite Hclosed. cbn [bind]. rewrite Hopen.
  eapply day_window_closed; eauto.
Qed.

Lemma override_without_hours_is_closed_witness :
  get_opening_hours (P := CPython.C_locale) Scenarios.bath_quiet Scenarios.tuesday
  = Return None.
Proof.
  apply (override_without_hours_is_closed (P := CPython.C_locale)
           Scenarios.bath_quiet Scenarios.tuesday
           [Scenarios.quiet_period] Scenarios.quiet_period (JBool false) JNull);
    try (vm_compute; reflexivity).
  left. reflexivity.
Defined.



(** C10.  For the entry matched in either tier, a day window whose ['from'] is
    present but falsy (empty string, null) gives [None] (closed), the same
    outcome as an entry with no window under that key: what counts is the
    truth value of ['from'], not the presence of the key. *)
Theorem falsy_from_is_closed {P : Platform} (pool : json) (d : date)
    (holiday regular : list json) (entry : json)
    (fields : list (string * json)) (opening : json) :
  tier pool "holiday_bhpool" = Return holiday ->
  (match_rule d holiday = Return (Some entry) \/
   (match_rule d holiday = Return None /\
    tier pool "usually_bhpool" = Return regular /\
    match_rule d regular = Return (Some entry))) ->
  get entry (day_of_week_str d) JNull = Return (JObject fields) ->
  lookup "from" fields = Some opening ->
  truthy opening = false ->
  get_opening_hours pool d = Return None
  /\ day_window (day_of_week_str d) entry = Return None
  /\ (forall others, lookup (day_of_week_str d) others = None ->
        day_window (day_of_week_str d) (JObject others) = Return None).
Proof.
  intros Hhol Hmatch Hwin Hfrom Hfalsy.
  assert (Hday : day_window (day_of_week_str d) entry = Return None).
  { eapply day_window_closed; [exact Hwin|]. right. exists opening.
    cbn [get]. now rewrite Hfrom. }
  split; [|split; [exact Hday|]].
  - rewrite get_opening_hours_tiers, Hhol. cbn [bind].
    destruct Hmatch as [Hm | [Hm [Hreg Hm']]]; rewrite Hm; cbn [bind].
    + unfold holiday_outcome.
      destruct (get entry "closed" (JBool false)) as [closed|e] eqn:Hc.
      * cbn [bind]. now destruct (truthy closed).
      * destruct entry; discriminate Hwin || (cbn in Hc;
          destruct (lookup "closed" fields0); discriminate).
    + rewrite Hreg. cbn [bind]. rewrite Hm'. exact Hday.
  - intros others Habsent. unfold day_window. cbn [get]. now rewrite Habsent.
Qed.

Lemma falsy_from_is_closed_witness :
  get_opening_hours (P := CPython.C_locale) Scenarios.bath_blank Scenarios.tuesday
    = Return None
  /\ get_opening_hours (P := CPython.C_locale) Scenarios.bath_null Scenarios.tuesday
    = Return None.
Proof.
  split.
  - refine (proj1 (falsy_from_is_closed (P := CPython.C_locale)
                     Scenarios.bath_blank Scenarios.tuesday
                     [Scenarios.blank_tuesday] [] Scenarios.blank_tuesday
                     [("from", JString ""); ("to", JString "20:00")] (JString "")
                     eq_refl _ _ _ _)); try (vm_compute; reflexivity).
    left. vm_compute. reflexivity.
  - refine (proj1 (falsy_from_is_closed (P := CPython.C_locale)
                     Scenarios.bath_null Scenarios.tuesday
                     [] [Scenarios.null_tuesday] Scenarios.null_tuesday
                     [("from", JNull); ("to", JNull)] JNull
                     eq_refl _ _ _ _)); try (vm_compute; reflexivity).
    right. repeat split; vm_compute; reflexivity.
Defined.

(** ** The weekday key *)

Lemma weekday_range (d : date) : 0 <= weekday d < 7.
Proof. unfold weekday. apply Z.mod_pos_bound. lia. Qed.

(** In one environment the key is a function of the weekday. *)
Lemma day_of_week_str_by_weekday {P : Platform} (d1 d2 : date) :
  weekday d1 = weekday d2 -> day_of_week_str d1 = day_of_week_str d2.
Proof. unfold day_of_week_str. now intros ->. Qed.

Ltac each_weekday d :=
  let H := fresh in
  pose proof (weekday_range d) as H;
  assert (weekday d = 0 \/ weekday d = 1 \/ weekday d = 2 \/ weekday d = 3 \/
          weekday d = 4 \/ weekday d = 5 \/ weekday d = 6) as
    [-> | [-> | [-> | [-> | [-> | [-> | ->]]]]]] by lia.

(** The keys of a process in the C locale. *)
Lemma day_of_week_str_C (d : date) :
  day_of_week_str (P := CPython.C_locale) d =
  nth (Z.to_nat (weekday d)) ["mo"; "tu"; "we"; "th"; "fr"; "sa"; "su"] "".
Proof. unfold day_of_week_str. each_weekday d; reflexivity. Qed.

(** The keys of a process in the de_DE locale. *)
Lemma day_of_week_str_de_DE (d : date) :
  day_of_week_str (P := CPython.de_DE_locale) d =
  nth (Z.to_nat (weekday d)) ["mo"; "di"; "mi"; "do"; "fr"; "sa"; "so"] "".
Proof. unfold day_of_week_str. each_weekday d; reflexivity. Qed.

(** C6.  The key of line 20 is read off the locale's day names: for Tuesday
    2024-06-11 a process in the C locale computes ["tu"], one in the de_DE
    locale ["di"], the key the comment on that line gives.  A schedule keyed
    by ["di"] is open that Tuesday for the second process and closed for the
    first. *)
Theorem weekday_key_follows_locale :
  day_of_week_str (P := CPython.C_locale) Scenarios.tuesday = "tu"
  /\ day_of_week_str (P := CPython.de_DE_locale) Scenarios.tuesday = "di"
  /\ get_opening_hours (P := CPython.C_locale)
       Scenarios.bath_dienstag Scenarios.tuesday = Return None
  /\ get_opening_hours (P := CPython.de_DE_locale)
       Scenarios.bath_dienstag Scenarios.tuesday
     = Return (Some (JString "06:00", JString "22:00")).
Proof. repeat split. Qed.

(** ** Entries with a damaged validity range *)

Lemma date_fromisoformat_raises {P : Platform} (v : json) (e : exn) :
  date_fromisoformat v = Raise e -> e = ValueError \/ e = TypeError.
Proof.
  unfold date_fromisoformat.
  destruct v; try (intros [= <-]; now right).
  destruct (date_isoparse s); [discriminate|]. intros [= <-]; now left.
Qed.

(** A ['from'] that is not a date string, or not a string. *)
Lemma in_validity_bad_from {P : Platform} (d : date) (entry validity lo : json)
    (e : exn) :
  subscript entry "validity" = Return validity ->
  subscript validity "from" = Return lo ->
  date_fromisoformat lo = Raise e ->
  in_validity d entry = Raise e /\ (e = ValueError \/ e = TypeError).
Proof.
  intros Hv Hlo He. split; [|eapply date_fromisoformat_raises; eauto].
  unfold in_validity, validity_bound. rewrite Hv. cbn [bind].
  rewrite Hlo. cbn [bind]. now rewrite He.
Qed.

(** A ['to'] that is not a date string, or not a string, after a good
    ['from']. *)
Lemma in_validity_bad_to {P : Platform} (d : date) (entry validity lo hi : json)
    (valid_from : date) (e : exn) :
  subscript entry "validity" = Return validity ->
  subscript validity "from" = Return lo ->
  date_fromisoformat lo = Return valid_from ->
  subscript validity "to" = Return hi ->
  date_fromisoformat hi = Raise e ->
  in_validity d entry = Raise e /\ (e = ValueError \/ e = TypeError).
Proof.
  intros Hv Hlo Hfrom Hhi He. split; [|eapply date_fromisoformat_raises; eauto].
  unfold in_validity, validity_bound. rewrite Hv. cbn [bind].
  rewrite Hlo. cbn [bind]. rewrite Hfrom. cbn [bind].
  rewrite Hhi. cbn [bind]. now rewrite He.
Qed.

(** An entry whose range raises [ValueError] or [TypeError] is passed over by
    the matcher and by both loops. *)
Lemma unparsable_range_skipped {P : Platform} (key : string) (d : date)
    (entry : json) (rest : list json) :
  in_validity d entry = Raise ValueError \/ in_validity d entry = Raise TypeError ->
  match_rule d (entry :: rest) = match_rule d rest
  /\ holiday_loop key d (entry :: rest) = holiday_loop key d rest
  /\ regular_loop key d (entry :: rest) = regular_loop key d rest.
Proof.
  intros H. cbn [match_rule holiday_loop regular_loop]. unfold try_entry.
  destruct H as [-> | ->]; repeat split; reflexivity.
Qed.

(** A dict entry without a validity record, or a validity record without one
    of its bounds, raises [KeyError], which neither loop catches. *)
Lemma missing_range_field_raises {P : Platform} (key : string) (d : date)
    (entry : json) (rest : list json) :
  in_validity d entry = Raise KeyError ->
  match_rule d (entry :: rest) = Raise KeyError
  /\ holiday_loop key d (entry :: rest) = Raise KeyError
  /\ regular_loop key d (entry :: rest) = Raise KeyError.
Proof.
  intros H. cbn [match_rule holiday_loop regular_loop]. unfold try_entry.
  rewrite H. repeat split; reflexivity.
Qed.

(** Scenario D: the entry with from="not-a-date" is passed over and the
    regular tier answers. *)
Example scenario_D :
  get_opening_hours (P := CPython.C_locale) Scenarios.bath_D Scenarios.wednesday
  = Return (Some (JString "06:00", JString "22:00")).
Proof. reflexivity. Qed.

(** C7.  A holiday entry whose validity record lacks its ['from'] makes
    [get_opening_hours] raise [KeyError]: the entry is not passed over, and
    the regular tier, which has hours for the day, is never reached. *)
Theorem absent_range_field_aborts :
  get_opening_hours (P := CPython.C_locale)
    Scenarios.bath_open_ended Scenarios.wednesday = Raise KeyError
  /\ get_opening_hours (P := CPython.C_locale)
       (Scenarios.bath [] [Scenarios.long_days]) Scenarios.wednesday
     = Return (Some (JString "06:00", JString "22:00")).
Proof. split; reflexivity. Qed.

(** ** The event loop *)

Lemma for_each_app {A B : Type} (body : A -> B -> result A) (xs ys : list B) (a : A) :
  for_each body (xs ++ ys) a = a' <- for_each body xs a ;; for_each body ys a'.
Proof.
  revert a. induction xs as [|x xs IH]; intros a; simpl; [reflexivity|].
  destruct (body a x); simpl; auto.
Qed.

(** X17.  A time string that [time.fromisoformat] rejects costs the day its event
    and nothing else: the turn of the loop ends normally, with one more line
    on stderr and the calendar as it was. *)
Lemma bad_time_string_skipped {P : Platform} (pool pool_name : json)
    (loc : json * json * json) (today d : date) (out : output) (i : Z)
    (start_str end_str : json) :
  date_add_days today i = Return d ->
  get_opening_hours pool d = Return (Some (start_str, end_str)) ->
  (time_fromisoformat start_str = Raise ValueError \/
   exists t, time_fromisoformat start_str = Return t /\
             time_fromisoformat end_str = Raise ValueError) ->
  day_step pool pool_name loc today out i =
  Return (mkoutput (cal out) (stdout out) (stderr out ++ [(pool_name, d)])).
Proof.
  intros Hd Hh Hbad. unfold day_step. rewrite Hd. cbn [bind]. rewrite Hh.
  cbn [bind]. unfold build_event.
  destruct Hbad as [-> | [t [-> ->]]]; reflexivity.
Qed.

(** X18.  A time value that is not a string raises [TypeError], which the [try]
    block of the loop does not catch. *)
Lemma non_string_time_aborts {P : Platform} (pool pool_name : json)
    (loc : json * json * json) (today d : date) (out : output) (i : Z)
    (start_str end_str : json) :
  date_add_days today i = Return d ->
  get_opening_hours pool d = Return (Some (start_str, end_str)) ->
  (time_fromisoformat start_str = Raise TypeError \/
   exists t, time_fromisoformat start_str = Return t /\
             time_fromisoformat end_str = Raise TypeError) ->
  day_step pool pool_name loc today out i = Raise TypeError.
Proof.
  intros Hd Hh Hbad. unfold day_step. rewrite Hd. cbn [bind]. rewrite Hh.
  cbn [bind]. unfold build_event.
  destruct Hbad as [-> | [t [-> ->]]]; reflexivity.
Qed.

(** A closing time that is a string but not a time: the two Wednesdays of the
    window are reported and left out, the second bath's Mondays are there. *)
Example malformed_string_run :
  exists out,
    create_calendar (P := CPython.C_locale)
      (JArray [Scenarios.bath_late; Scenarios.bath_B]) Scenarios.wednesday
    = Return out
    /\ stderr out = [(JString "Leo-Vetter-Bad", mkdate 739049);
                     (JString "Leo-Vetter-Bad", mkdate 739056)]
    /\ map uid (cal out) = [(JInt 7, mkdate 739054); (JInt 7, mkdate 739061)].
Proof. eexists. repeat split. Qed.

(** C8.  A closing time of null stops the whole run: [create_calendar] raises
    [TypeError] on the first day of the first bath, and the second bath, whose
    data is sound, is never processed. *)
Theorem null_time_aborts_run :
  create_calendar (P := CPython.C_locale)
    (JArray [Scenarios.bath_null_close; Scenarios.bath_B]) Scenarios.wednesday
  = Raise TypeError
  /\ get_opening_hours (P := CPython.C_locale)
       Scenarios.bath_null_close Scenarios.wednesday
     = Return (Some (JString "08:00", JNull)).
Proof. split; reflexivity. Qed.

(** When the two times get the same UTC offset, a close before the open is
    moved to the next civil day and the event lasts a positive time. *)
Lemma rollover_same_offset {P : Platform} (pool pool_name id : json)
    (loc : json * json * json) (d : date) (start_str end_str : json)
    (opening closing : time) :
  time_fromisoformat start_str = Return opening ->
  time_fromisoformat end_str = Return closing ->
  time_tzinfo opening = None ->
  time_tzinfo closing = None ->
  0 <= time_us closing < time_us opening ->
  time_us opening < US_PER_DAY ->
  localize_utcoffset d (time_us opening) = localize_utcoffset d (time_us closing) ->
  1 <= toordinal d < MAXORDINAL ->
  subscript pool "id" = Return id ->
  exists event,
    build_event pool pool_name loc d start_str end_str = Return event
    /\ dt_date (dtstart event) = d
    /\ dt_date (dtend event) = mkdate (toordinal d + 1)
    /\ dt_us (dtend event) = time_us closing
    /\ 0 < datetime_sub (dtend event) (dtstart event).
Proof.
  intros Hs He Hzs Hze Hlt Hday Hoff Hd Hid.
  unfold build_event, localize. rewrite Hs. cbn [bind]. rewrite He. cbn [bind].
  rewrite Hzs. cbn [bind]. rewrite Hze. cbn [bind].
  unfold datetime_le, utc_instant. cbn [dt_date dt_us dt_utcoffset].
  rewrite Hoff.
  replace (_ <=? _) with true by (symmetry; apply Z.leb_le; lia).
  unfold datetime_add_day, date_add_days. cbn [dt_date dt_us dt_utcoffset].
  replace ((1 <=? toordinal d + 1) && (toordinal d + 1 <=? MAXORDINAL))%bool
    with true
    by (symmetry; apply andb_true_intro; split; apply Z.leb_le; lia).
  cbn [bind]. rewrite Hid. cbn [bind].
  eexists. split; [reflexivity|].
  cbn [dtstart dtend dt_date dt_us dt_utcoffset].
  repeat split.
  unfold datetime_sub, utc_instant. cbn [dt_date dt_us dt_utcoffset toordinal].
  unfold US_PER_DAY in *. lia.
Qed.

(** C9.  On the days the clocks change the comparison of line 127 goes by
    instants, not by times of day.  On 2024-03-31 a Sunday window 03:30-02:45
    yields an event whose end stays on the same civil day, before its start on
    the wall clock; on 2024-10-27 a Sunday window 23:30-00:15 is moved to the
    next day and its end minus its start is minus fifteen minutes. *)
Theorem rollover_fails_on_clock_change :
  day_step (P := CPython.C_locale) Scenarios.bath_early Scenarios.name
    Scenarios.address Scenarios.spring_forward (mkoutput [] [] []) 0
  = Return (mkoutput
              [mkEvent Scenarios.name
                 (mkdatetime Scenarios.spring_forward 12600000000 7200000000)
                 (mkdatetime Scenarios.spring_forward 9900000000 3600000000)
                 Scenarios.address (JInt 7, Scenarios.spring_forward)]
              [] [])
  /\ exists event,
       day_step (P := CPython.C_locale) Scenarios.bath_night Scenarios.name
         Scenarios.address Scenarios.fall_back (mkoutput [] [] []) 0
       = Return (mkoutput [event] [] [])
       /\ dt_date (dtstart event) = Scenarios.fall_back
       /\ dt_date (dtend event) = mkdate (toordinal Scenarios.fall_back + 1)
       /\ datetime_sub (dtend event) (dtstart event) = - 900000000.
Proof. split; [reflexivity|]. eexists. repeat split. Qed.

(** * Further properties of [get_opening_hours] *)

Section MatcherFacts.
Context {P : Platform}.

Lemma subscript_raises (v : json) (k : string) (e : exn) :
  subscript v k = Raise e -> e = KeyError \/ e = TypeError.
Proof.
  destruct v; simpl; try (intros [= <-]; now right).
  destruct (lookup k fields); [discriminate|]. intros [= <-]; now left.
Qed.

Lemma validity_bound_raises (entry : json) (k : string) (e : exn) :
  validity_bound entry k = Raise e ->
  e = KeyError \/ e = TypeError \/ e = ValueError.
Proof.
  unfold validity_bound.
  destruct (subscript entry "validity") as [validity|x] eqn:Hv; cbn [bind].
  - destruct (subscript validity k) as [bound|y] eqn:Hb; cbn [bind].
    + intros H. destruct (date_fromisoformat_raises _ _ H); auto.
    + intros [= <-]. destruct (subscript_raises _ _ _ Hb); auto.
  - intros [= <-]. destruct (subscript_raises _ _ _ Hv); auto.
Qed.

Lemma in_validity_raises (d : date) (entry : json) (e : exn) :
  in_validity d entry = Raise e ->
  e = KeyError \/ e = TypeError \/ e = ValueError.
Proof.
  unfold in_validity.
  destruct (validity_bound entry "from") as [lo|x] eqn:Hlo; cbn [bind].
  - destruct (validity_bound entry "to") as [hi|y] eqn:Hhi; cbn [bind];
      [discriminate|].
    intros [= <-]. eapply validity_bound_raises; eauto.
  - intros [= <-]. eapply validity_bound_raises; eauto.
Qed.

(** The matcher lets one exception through. *)
Lemma match_rule_raises (d : date) (entries : list json) (e : exn) :
  match_rule d entries = Raise e -> e = KeyError.
Proof.
  induction entries as [|entry rest IH]; simpl; [discriminate|].
  destruct (in_validity d entry) as [[|]|x] eqn:Hin; [discriminate|exact IH|].
  destruct (in_validity_raises _ _ _ Hin) as [-> | [-> | ->]]; auto.
  now intros [= <-].
Qed.

Lemma iterate_raises (v : json) (e : exn) :
  iterate v = Raise e -> e = TypeError.
Proof. destruct v; simpl; congruence. Qed.

Lemma tier_raises (pool : json) (name : string) (e : exn) :
  tier pool name = Raise e -> e = AttributeError \/ e = TypeError.
Proof.
  unfold tier.
  destruct pool; simpl; try (intros [= <-]; now left).
  destruct (lookup "businesshours" fields) as [bh|]; cbn [bind].
  - destruct bh; simpl; try (intros [= <-]; now left).
    destruct (lookup name fields0) as [rules|]; cbn [bind].
    + intros H. right. eapply iterate_raises; eauto.
    + simpl. discriminate.
  - simpl. destruct (lookup name []) eqn:Hl; [discriminate Hl|]. simpl.
    discriminate.
Qed.

(** A non-dict item has no ['validity'] to subscript. *)
Lemma in_validity_non_object (d : date) (entry : json) :
  is_object entry = false -> in_validity d entry = Raise TypeError.
Proof. destruct entry; simpl; intros H; try reflexivity. discriminate. Qed.

(** The matcher on a list whose head part is passed over. *)
Lemma match_rule_skip_prefix (d : date) (pre rest : list json) :
  Forall (fun entry => stops d entry = false) pre ->
  match_rule d (pre ++ rest) = match_rule d rest.
Proof.
  induction 1 as [|entry pre Hentry _ IH]; simpl; [reflexivity|].
  unfold stops in Hentry.
  destruct (in_validity d entry) as [[|]|x] eqn:Hin; try discriminate;
    [exact IH|].
  destruct (in_validity_raises _ _ _ Hin) as [-> | [-> | ->]];
    try discriminate; exact IH.
Qed.

(** Once an entry is matched, and is not a closed holiday entry, the answer
    is its day window. *)
Lemma matched_entry_day_window (pool : json) (d : date)
    (holiday regular : list json) (entry : json) :
  tier pool "holiday_bhpool" = Return holiday ->
  ((match_rule d holiday = Return (Some entry) /\
    exists closed, get entry "closed" (JBool false) = Return closed /\
                   truthy closed = false) \/
   (match_rule d holiday = Return None /\
    tier pool "usually_bhpool" = Return regular /\
    match_rule d regular = Return (Some entry))) ->
  get_opening_hours pool d = day_window (day_of_week_str d) entry.
Proof.
  intros Hhol Hmatch. rewrite get_opening_hours_tiers, Hhol. cbn [bind].
  destruct Hmatch as [[Hm [closed [Hc Hf]]] | [Hm [Hreg Hm']]];
    rewrite Hm; cbn [bind].
  - unfold holiday_outcome. rewrite Hc. cbn [bind]. now rewrite Hf.
  - rewrite Hreg. cbn [bind]. now rewrite Hm'.
Qed.

End MatcherFacts.

(** X1.  [get_opening_hours] raises nothing but [KeyError], [TypeError] and
    [AttributeError]: a [ValueError] never leaves it. *)
Theorem get_opening_hours_raises {P : Platform} (pool : json) (d : date) (e : exn) :
  get_opening_hours pool d = Raise e ->
  e = KeyError \/ e = TypeError \/ e = AttributeError.
Proof.
  rewrite get_opening_hours_tiers.
  destruct (tier pool "holiday_bhpool") as [holiday|x] eqn:Hh; cbn [bind].
  2:{ intros [= <-]. destruct (tier_raises _ _ _ Hh); auto. }
  destruct (match_rule d holiday) as [[entry|]|x] eqn:Hm; cbn [bind].
  - intros H. destruct (holiday_outcome_raises _ _ _ H); auto.
  - destruct (tier pool "usually_bhpool") as [regular|x] eqn:Hr; cbn [bind].
    2:{ intros [= <-]. destruct (tier_raises _ _ _ Hr); auto. }
    destruct (match_rule d regular) as [[entry|]|x] eqn:Hm'; cbn [bind].
    + intros H. destruct (day_window_raises _ _ _ H); auto.
    + discriminate.
    + intros [= <-]. left. eapply match_rule_raises; eauto.
  - intros [= <-]. left. eapply match_rule_raises; eauto.
Qed.

Lemma get_opening_hours_raises_witness :
  KeyError = KeyError \/ KeyError = TypeError \/ KeyError = AttributeError.
Proof.
  apply (get_opening_hours_raises (P := CPython.C_locale)
           Scenarios.bath_open_ended Scenarios.wednesday KeyError).
  vm_compute. reflexivity.
Defined.

(** X2.  The matcher on any list: the first entry that either contains the
    date or lacks a range field decides; the one gives the match, the other a
    [KeyError]; without such an entry the answer is none. *)
Theorem matcher_total {P : Platform} (d : date) (entries : list json) :
  match_rule d entries =
  match find (stops d) entries with
  | Some entry =>
      if contains_date d entry then Return (Some entry) else Raise KeyError
  | None => Return None
  end.
Proof.
  induction entries as [|entry rest IH]; cbn [match_rule find]; [reflexivity|].
  assert (Hs : stops d entry = match in_validity d entry with
                               | Return b => b
                               | Raise KeyError => true
                               | Raise _ => false
                               end) by reflexivity.
  assert (Hc : contains_date d entry = match in_validity d entry with
                                       | Return b => b
                                       | Raise _ => false
                                       end) by reflexivity.
  destruct (in_validity d entry) as [[|]|x] eqn:Hin; rewrite Hs.
  - now rewrite Hc.
  - exact IH.
  - destruct (in_validity_raises _ _ _ Hin) as [-> | [-> | ->]].
    + now rewrite Hc.
    + exact IH.
    + exact IH.
Qed.

(** X3.  What follows the deciding entry is never looked at: changing the
    rest of the list changes nothing, for the matcher and for both loops. *)
Theorem entries_after_match_ignored {P : Platform} (key : string) (d : date)
    (pre post post' : list json) (entry : json) :
  stops d entry = true ->
  match_rule d (pre ++ entry :: post) = match_rule d (pre ++ entry :: post')
  /\ holiday_loop key d (pre ++ entry :: post)
     = holiday_loop key d (pre ++ entry :: post')
  /\ regular_loop key d (pre ++ entry :: post)
     = regular_loop key d (pre ++ entry :: post').
Proof.
  intros Hstop.
  assert (Hm : match_rule d (pre ++ entry :: post)
               = match_rule d (pre ++ entry :: post')).
  { induction pre as [|x pre IH]; simpl.
    - unfold stops in Hstop.
      destruct (in_validity d entry) as [[|]|[]]; try discriminate; reflexivity.
    - destruct (in_validity d x) as [[|]|[]]; auto. }
  rewrite !holiday_loop_match, !regular_loop_match, Hm. auto.
Qed.

Lemma entries_after_match_ignored_witness :
  holiday_loop (P := CPython.C_locale) "we" Scenarios.wednesday
    ([Scenarios.garbled] ++ Scenarios.short_day :: [Scenarios.open_ended])
  = holiday_loop (P := CPython.C_locale) "we" Scenarios.wednesday
      ([Scenarios.garbled] ++ Scenarios.short_day :: []).
Proof.
  apply (entries_after_match_ignored (P := CPython.C_locale) "we"
           Scenarios.wednesday [Scenarios.garbled] [Scenarios.open_ended] []
           Scenarios.short_day).
  vm_compute. reflexivity.
Defined.

(** X4.  Items of a tier that are not dicts (strings, numbers, null, lists)
    are passed over by the matcher and by both loops. *)
Theorem non_dict_rules_skipped {P : Platform} (key : string) (d : date)
    (items rest : list json) :
  Forall (fun item => is_object item = false) items ->
  match_rule d (items ++ rest) = match_rule d rest
  /\ holiday_loop key d (items ++ rest) = holiday_loop key d rest
  /\ regular_loop key d (items ++ rest) = regular_loop key d rest.
Proof.
  intros Hitems.
  assert (Hm : match_rule d (items ++ rest) = match_rule d rest).
  { apply match_rule_skip_prefix.
    eapply Forall_impl; [|exact Hitems].
    intros item Hitem. unfold stops.
    now rewrite (in_validity_non_object d item Hitem). }
  rewrite !holiday_loop_match, !regular_loop_match, Hm. auto.
Qed.

Lemma non_dict_rules_skipped_witness :
  match_rule (P := CPython.C_locale) Scenarios.wednesday
    (Scenarios.litter ++ [Scenarios.short_day])
  = match_rule (P := CPython.C_locale) Scenarios.wednesday [Scenarios.short_day].
Proof.
  apply (non_dict_rules_skipped (P := CPython.C_locale) "we" Scenarios.wednesday
           Scenarios.litter [Scenarios.short_day]).
  repeat constructor.
Defined.

Lemma chars_non_object (s : string) :
  Forall (fun item => is_object item = false) (chars s).
Proof. induction s; simpl; constructor; auto. Qed.

(** X5.  A tier that is a dict or a string instead of a list holds no rule:
    the loop runs over its keys or characters and passes over every one. *)
Theorem tier_not_a_list_is_empty {P : Platform} (key : string) (d : date)
    (rules : json) (items : list json) :
  is_object rules = true \/ (exists s, rules = JString s) ->
  iterate rules = Return items ->
  match_rule d items = Return None
  /\ holiday_loop key d items = Return None
  /\ regular_loop key d items = Return None.
Proof.
  intros Hshape Hiter.
  assert (Hitems : Forall (fun item => is_object item = false) items).
  { destruct Hshape as [Hobj | [s ->]].
    - destruct rules; try discriminate Hobj. simpl in Hiter.
      injection Hiter as <-. apply Forall_forall. intros item Hin.
      apply in_map_iff in Hin. destruct Hin as [kv [<- _]]. reflexivity.
    - simpl in Hiter. injection Hiter as <-. apply chars_non_object. }
  assert (Hm : match_rule d items = Return None).
  { rewrite <- (app_nil_r items). rewrite match_rule_skip_prefix; [reflexivity|].
    eapply Forall_impl; [|exact Hitems].
    intros item Hitem. unfold stops.
    now rewrite (in_validity_non_object d item Hitem). }
  rewrite holiday_loop_match, regular_loop_match, Hm. auto.
Qed.

Lemma tier_not_a_list_is_empty_witness :
  holiday_loop (P := CPython.C_locale) "we" Scenarios.wednesday
    [JString "validity"; JString "closed"] = Return None.
Proof.
  apply (tier_not_a_list_is_empty (P := CPython.C_locale) "we" Scenarios.wednesday
           (JObject [("validity", JNull); ("closed", JBool true)])).
  - left. reflexivity.
  - reflexivity.
Defined.

(** X6.  What the shape of the pool record does to [get_opening_hours].  A
    missing ['businesshours'], or missing tiers, count as empty and the answer
    is [None]; a pool or a ['businesshours'] that is not a dict raises
    [AttributeError]; a holiday tier that is present but not iterable (null, a
    number, a boolean) raises [TypeError]. *)
Theorem pool_shape {P : Platform} (pool : json) (d : date) :
  (is_object pool = false -> get_opening_hours pool d = Raise AttributeError)
  /\ (forall fields,
        pool = JObject fields ->
        lookup "businesshours" fields = None ->
        get_opening_hours pool d = Return None)
  /\ (forall fields business_hours,
        pool = JObject fields ->
        lookup "businesshours" fields = Some business_hours ->
        is_object business_hours = false ->
        get_opening_hours pool d = Raise AttributeError)
  /\ (forall fields tiers,
        pool = JObject fields ->
        lookup "businesshours" fields = Some (JObject tiers) ->
        lookup "holiday_bhpool" tiers = None ->
        lookup "usually_bhpool" tiers = None ->
        get_opening_hours pool d = Return None)
  /\ (forall fields tiers rules,
        pool = JObject fields ->
        lookup "businesshours" fields = Some (JObject tiers) ->
        lookup "holiday_bhpool" tiers = Some rules ->
        iterable rules = false ->
        get_opening_hours pool d = Raise TypeError).
Proof.
  repeat apply conj.
  - destruct pool; try reflexivity. discriminate.
  - intros fields -> Hbh. unfold get_opening_hours. cbn [get]. rewrite Hbh.
    reflexivity.
  - intros fields bh -> Hbh Hshape. unfold get_opening_hours. cbn [get].
    rewrite Hbh. destruct bh; try reflexivity. discriminate.
  - intros fields tiers -> Hbh Hhol Hreg. unfold get_opening_hours. cbn [get].
    rewrite Hbh. cbn [bind get]. rewrite Hhol. cbn [bind iterate holiday_loop].
    rewrite Hreg. reflexivity.
  - intros fields tiers rules -> Hbh Hhol Hiter. unfold get_opening_hours.
    cbn [get]. rewrite Hbh. cbn [bind get]. rewrite Hhol. cbn [bind].
    unfold iterable in Hiter.
    destruct (iterate rules) as [items|x] eqn:Hi; [discriminate|].
    now rewrite (iterate_raises _ _ Hi).
Qed.

Lemma pool_shape_witness :
  get_opening_hours (P := CPython.C_locale) Scenarios.bath_null_tier
    Scenarios.wednesday = Raise TypeError
  /\ get_opening_hours (P := CPython.C_locale) (JObject []) Scenarios.wednesday
     = Return None.
Proof.
  split.
  - refine (proj2 (proj2 (proj2 (proj2
             (pool_shape (P := CPython.C_locale) Scenarios.bath_null_tier
                Scenarios.wednesday)))) _ _ JNull eq_refl _ _ _); reflexivity.
  - refine (proj1 (proj2 (pool_shape (P := CPython.C_locale) (JObject [])
                            Scenarios.wednesday)) [] eq_refl _); reflexivity.
Defined.

(** X7.  In the matched entry (of a holiday entry that is not closed, or of a
    regular one), a window with a true ['from'] but no ['to'] key makes
    [get_opening_hours] raise [KeyError]. *)
Theorem window_without_to_raises {P : Platform} (pool : json) (d : date)
    (holiday regular : list json) (entry : json)
    (fields : list (string * json)) (opening : json) :
  tier pool "holiday_bhpool" = Return holiday ->
  ((match_rule d holiday = Return (Some entry) /\
    exists closed, get entry "closed" (JBool false) = Return closed /\
                   truthy closed = false) \/
   (match_rule d holiday = Return None /\
    tier pool "usually_bhpool" = Return regular /\
    match_rule d regular = Return (Some entry))) ->
  get entry (day_of_week_str d) JNull = Return (JObject fields) ->
  lookup "from" fields = Some opening ->
  truthy opening = true ->
  lookup "to" fields = None ->
  get_opening_hours pool d = Raise KeyError.
Proof.
  intros Hhol Hmatch Hwin Hfrom Htruthy Hto.
  rewrite (matched_entry_day_window pool d holiday regular entry Hhol Hmatch).
  unfold day_window. rewrite Hwin. cbn [bind].
  destruct fields as [|field fields']; [discriminate|].
  cbn [truthy bind get subscript]. rewrite Hfrom. cbn [bind].
  now rewrite Htruthy, Hto.
Qed.

Lemma window_without_to_raises_witness :
  get_opening_hours (P := CPython.C_locale) Scenarios.bath_no_close
    Scenarios.wednesday = Raise KeyError.
Proof.
  refine (window_without_to_raises (P := CPython.C_locale)
            Scenarios.bath_no_close Scenarios.wednesday []
            [Scenarios.all_year [("we", JObject [("from", JString "08:00")])]]
            (Scenarios.all_year [("we", JObject [("from", JString "08:00")])])
            [("from", JString "08:00")] (JString "08:00")
            eq_refl _ _ _ _ _); try reflexivity.
  right. repeat split; reflexivity.
Defined.

(** X8.  In the matched entry, a day value that is true but not a dict (a
    text, a number, a list) makes [get_opening_hours] raise
    [AttributeError]. *)
Theorem non_dict_window_raises {P : Platform} (pool : json) (d : date)
    (holiday regular : list json) (entry day_hours : json) :
  tier pool "holiday_bhpool" = Return holiday ->
  ((match_rule d holiday = Return (Some entry) /\
    exists closed, get entry "closed" (JBool false) = Return closed /\
                   truthy closed = false) \/
   (match_rule d holiday = Return None /\
    tier pool "usually_bhpool" = Return regular /\
    match_rule d regular = Return (Some entry))) ->
  get entry (day_of_week_str d) JNull = Return day_hours ->
  truthy day_hours = true ->
  is_object day_hours = false ->
  get_opening_hours pool d = Raise AttributeError.
Proof.
  intros Hhol Hmatch Hwin Htruthy Hshape.
  rewrite (matched_entry_day_window pool d holiday regular entry Hhol Hmatch).
  unfold day_window. rewrite Hwin. cbn [bind]. rewrite Htruthy.
  destruct day_hours; try reflexivity. discriminate.
Qed.

Lemma non_dict_window_raises_witness :
  get_opening_hours (P := CPython.C_locale) Scenarios.bath_text_day
    Scenarios.wednesday = Raise AttributeError.
Proof.
  refine (non_dict_window_raises (P := CPython.C_locale)
            Scenarios.bath_text_day Scenarios.wednesday []
            [Scenarios.all_year [("we", JString "geschlossen")]]
            (Scenarios.all_year [("we", JString "geschlossen")])
            (JString "geschlossen") eq_refl _ _ _ _); try reflexivity.
  right. repeat split; reflexivity.
Defined.







(** * Further properties of the event loop *)

Section LoopFacts.
Context {P : Platform}.

Lemma output_app_nil_r (a : output) : output_app a no_output = a.
Proof. destruct a. unfold output_app. simpl. now rewrite !app_nil_r. Qed.

Lemma output_app_nil_l (a : output) : output_app no_output a = a.
Proof. destruct a. reflexivity. Qed.

Lemma output_app_assoc (a b c : output) :
  output_app (output_app a b) c = output_app a (output_app b c).
Proof. unfold output_app. simpl. now rewrite <- !app_assoc. Qed.

(** What a turn of the day loop adds does not depend on what is there. *)
Lemma day_step_app (pool pool_name : json) (loc : json * json * json)
    (today : date) (out : output) (i : Z) :
  day_step pool pool_name loc today out i =
  r <- day_step pool pool_name loc today no_output i ;; Return (output_app out r).
Proof.
  unfold day_step.
  destruct (date_add_days today i) as [d|]; cbn [bind]; [|reflexivity].
  destruct (get_opening_hours pool d) as [[[s e]|]|]; cbn [bind];
    [| now rewrite output_app_nil_r | reflexivity].
  destruct (build_event pool pool_name loc d s e) as [event|[]];
    cbn [bind]; try reflexivity;
    unfold output_app, no_output; cbn [cal stdout stderr app];
    now rewrite !app_nil_r.
Qed.

(** A loop whose turns only add to the output adds the same to any output. *)
Lemma for_each_output {B : Type} (body : output -> B -> result output) :
  (forall out x,
     body out x = r <- body no_output x ;; Return (output_app out r)) ->
  forall items out,
    for_each body items out =
    r <- for_each body items no_output ;; Return (output_app out r).
Proof.
  intros Hbody items. induction items as [|x rest IH]; intros out;
    cbn [for_each].
  - cbn [bind]. now rewrite output_app_nil_r.
  - rewrite (Hbody out x).
    destruct (body no_output x) as [r|e]; cbn [bind]; [|reflexivity].
    rewrite (IH (output_app out r)), (IH r).
    destruct (for_each body rest no_output) as [r2|e]; cbn [bind];
      [|reflexivity].
    now rewrite output_app_assoc.
Qed.

Lemma pool_step_app (today : date) (out : output) (pool : json) :
  pool_step today out pool =
  r <- pool_step today no_output pool ;; Return (output_app out r).
Proof.
  unfold pool_step.
  destruct (get pool "lookups" (JObject [])) as [lookups|]; cbn [bind];
    [|reflexivity].
  destruct (get lookups "type" (JObject [])) as [type|]; cbn [bind];
    [|reflexivity].
  destruct (get type "value" JNull) as [pool_type|]; cbn [bind]; [|reflexivity].
  destruct (negb (is_hallenbad pool_type)).
  { cbn [bind]. now rewrite output_app_nil_r. }
  destruct (get pool "name" JNull) as [pool_name|]; cbn [bind]; [|reflexivity].
  destruct (negb (truthy pool_name)).
  { cbn [bind]. now rewrite output_app_nil_r. }
  destruct (get pool "building" (JObject [])) as [building|]; cbn [bind];
    [|reflexivity].
  destruct (get building "street" (JString "")) as [street|]; cbn [bind];
    [|reflexivity].
  destruct (get building "zip_code" (JString "")) as [zip_code|]; cbn [bind];
    [|reflexivity].
  destruct (get building "city" (JString "")) as [city|]; cbn [bind];
    [|reflexivity].
  set (body := day_step pool pool_name (street, zip_code, city) today).
  pose proof (for_each_output body
                (day_step_app pool pool_name (street, zip_code, city) today))
    as Hloop.
  rewrite (Hloop _ (mkoutput (cal out) (stdout out ++ [pool_name]) (stderr out))).
  rewrite (Hloop _ (mkoutput (cal no_output) (stdout no_output ++ [pool_name])
                      (stderr no_output))).
  destruct (for_each body (range DAYS_TO_GENERATE) no_output) as [r|];
    cbn [bind]; [|reflexivity].
  f_equal. destruct out, r. unfold output_app. simpl.
  now rewrite <- app_assoc.
Qed.

(** A pool that one of the two filters passes over leaves the output as it
    was. *)
Lemma skipped_pool_step (today : date) (out : output) (pool : json) :
  skipped pool = true -> pool_step today out pool = Return out.
Proof.
  unfold skipped, pool_step.
  destruct (get pool "lookups" (JObject [])) as [lookups|]; cbn [bind];
    [|discriminate].
  destruct (get lookups "type" (JObject [])) as [type|]; cbn [bind];
    [|discriminate].
  destruct (get type "value" JNull) as [pool_type|]; cbn [bind]; [|discriminate].
  destruct (is_hallenbad pool_type); cbn [negb]; [|reflexivity].
  destruct (get pool "name" JNull) as [pool_name|]; cbn [bind]; [|discriminate].
  now intros ->.
Qed.

End LoopFacts.

(** X10.  Running the loop over two lists of pools in a row gives the output
    of the first followed by the output of the second: events, processing
    lines and warnings of a pool do not depend on the pools before it. *)
Theorem create_calendar_app {P : Platform} (xs ys : list json) (today : date) :
  create_calendar (JArray (xs ++ ys)) today =
  a <- create_calendar (JArray xs) today ;;
  b <- create_calendar (JArray ys) today ;;
  Return (output_app a b).
Proof.
  unfold create_calendar. cbn [iterate bind]. rewrite for_each_app.
  fold no_output.
  destruct (for_each (pool_step today) xs no_output) as [a|]; cbn [bind];
    [|reflexivity].
  apply (for_each_output (pool_step today)). intros out x. apply pool_step_app.
Qed.

(** X11.  The pools that are not of type 'Hallenbad', or have no name, play no
    part: the run is the run over the remaining pools. *)
Theorem create_calendar_filter {P : Platform} (pools : list json) (today : date) :
  create_calendar (JArray pools) today =
  create_calendar (JArray (filter (fun pool => negb (skipped pool)) pools)) today.
Proof.
  unfold create_calendar. cbn [iterate bind].
  generalize (mkoutput [] [] []) as out.
  induction pools as [|pool rest IH]; intros out; cbn [filter for_each];
    [reflexivity|].
  destruct (skipped pool) eqn:Hs; cbn [negb].
  - rewrite (skipped_pool_step today out pool Hs). cbn [bind]. apply IH.
  - cbn [for_each]. destruct (pool_step today out pool); cbn [bind];
      [apply IH | reflexivity].
Qed.

Section RunFacts.
Context {P : Platform}.

(** What a finished event holds. *)
Lemma build_event_fields (pool pool_name : json) (loc : json * json * json)
    (d : date) (start_str end_str : json) (event : Event) :
  build_event pool pool_name loc d start_str end_str = Return event ->
  summary event = pool_name
  /\ location event = loc
  /\ dt_date (dtstart event) = d
  /\ (exists id, subscript pool "id" = Return id /\ uid event = (id, d))
  /\ (exists start_time, time_fromisoformat start_str = Return start_time
                         /\ dt_us (dtstart event) = time_us start_time)
  /\ ((dt_date (dtend event) = d
       /\ utc_instant (dtstart event) < utc_instant (dtend event))
      \/ dt_date (dtend event) = mkdate (toordinal d + 1)).
Proof.
  unfold build_event.
  destruct (time_fromisoformat start_str) as [ts|] eqn:Hs; cbn [bind];
    [|discriminate].
  destruct (time_fromisoformat end_str) as [te|]; cbn [bind]; [|discriminate].
  unfold localize.
  destruct (time_tzinfo ts); cbn [bind]; [discriminate|].
  destruct (time_tzinfo te); cbn [bind]; [discriminate|].
  set (dt_start := mkdatetime d (time_us ts) (localize_utcoffset d (time_us ts))).
  set (dt_end := mkdatetime d (time_us te) (localize_utcoffset d (time_us te))).
  destruct (datetime_le dt_end dt_start) eqn:Hle.
  - unfold datetime_add_day, date_add_days. cbn [dt_date dt_end].
    destruct ((1 <=? toordinal d + 1) && (toordinal d + 1 <=? MAXORDINAL))%bool;
      cbn [bind]; [|discriminate].
    destruct (subscript pool "id") as [id|]; cbn [bind]; [|discriminate].
    intros [= <-]. cbn. repeat split; eauto.
  - cbn [bind].
    destruct (subscript pool "id") as [id|]; cbn [bind]; [|discriminate].
    intros [= <-]. cbn [summary location dtstart dtend uid].
    repeat split; eauto. left. split; [reflexivity|].
    unfold datetime_le in Hle. apply Z.leb_gt in Hle. exact Hle.
Qed.

(** What a turn of the day loop can do to the output. *)
Lemma day_step_adds (pool pool_name : json) (loc : json * json * json)
    (today : date) (out out' : output) (i : Z) :
  day_step pool pool_name loc today out i = Return out' ->
  exists d,
    date_add_days today i = Return d
    /\ stdout out' = stdout out
    /\ ((cal out' = cal out /\ stderr out' = stderr out)
        \/ (exists event start_str end_str,
              get_opening_hours pool d = Return (Some (start_str, end_str))
              /\ build_event pool pool_name loc d start_str end_str = Return event
              /\ cal out' = (cal out ++ [event])%list /\ stderr out' = stderr out)
        \/ (cal out' = cal out
            /\ stderr out' = (stderr out ++ [(pool_name, d)])%list)).
Proof.
  unfold day_step.
  destruct (date_add_days today i) as [d|]; cbn [bind]; [|discriminate].
  intros H. exists d. split; [reflexivity|].
  destruct (get_opening_hours pool d) as [[[s e]|]|] eqn:Hh; cbn [bind] in H;
    [| injection H as <-; auto | discriminate].
  destruct (build_event pool pool_name loc d s e) as [event|[]] eqn:Hb;
    try discriminate; injection H as <-; cbn [cal stdout stderr].
  - split; [reflexivity|]. right. left. exists event, s, e. auto.
  - split; [reflexivity|]. right. right. auto.
Qed.

Lemma date_add_days_ordinal (d d' : date) (n : Z) :
  date_add_days d n = Return d' -> toordinal d' = toordinal d + n.
Proof.
  unfold date_add_days.
  destruct ((1 <=? toordinal d + n) && (toordinal d + n <=? MAXORDINAL))%bool;
    [|discriminate].
  now intros [= <-].
Qed.

Lemma in_range (n : nat) (i : Z) : In i (range n) -> 0 <= i < Z.of_nat n.
Proof.
  unfold range. intros Hin. apply in_map_iff in Hin.
  destruct Hin as [k [<- Hk]]. apply in_seq in Hk. lia.
Qed.

(** A property of the output that every turn keeps is kept by the loop. *)
Lemma for_each_invariant {A B : Type} (body : A -> B -> result A)
    (I : A -> Prop) (items : list B) :
  (forall a x a', In x items -> I a -> body a x = Return a' -> I a') ->
  forall a a', I a -> for_each body items a = Return a' -> I a'.
Proof.
  induction items as [|x rest IH]; intros Hbody a a' Ha; cbn [for_each].
  - now intros [= <-].
  - destruct (body a x) as [a1|] eqn:Hx; cbn [bind]; [|discriminate].
    apply IH.
    + intros b y b' Hy. apply Hbody. now right.
    + eapply Hbody; eauto. now left.
Qed.

(** The two ways a turn of the pool loop can end well. *)
Lemma pool_step_result (today : date) (out out' : output) (pool : json) :
  pool_step today out pool = Return out' ->
  (skipped pool = true /\ out' = out)
  \/ (skipped pool = false /\
      exists loc,
        for_each (day_step pool (name_of pool) loc today)
          (range DAYS_TO_GENERATE)
          (mkoutput (cal out) (stdout out ++ [name_of pool]) (stderr out))
        = Return out').
Proof.
  unfold pool_step, skipped, name_of.
  destruct (get pool "lookups" (JObject [])) as [lookups|]; cbn [bind];
    [|discriminate].
  destruct (get lookups "type" (JObject [])) as [type|]; cbn [bind];
    [|discriminate].
  destruct (get type "value" JNull) as [pool_type|]; cbn [bind]; [|discriminate].
  destruct (is_hallenbad pool_type); cbn [negb].
  2:{ intros [= <-]. now left. }
  destruct (get pool "name" JNull) as [pool_name|]; cbn [bind]; [|discriminate].
  destruct (truthy pool_name); cbn [negb].
  2:{ intros [= <-]. now left. }
  destruct (get pool "building" (JObject [])) as [building|]; cbn [bind];
    [|discriminate].
  destruct (get building "street" (JString "")) as [street|]; cbn [bind];
    [|discriminate].
  destruct (get building "zip_code" (JString "")) as [zip_code|]; cbn [bind];
    [|discriminate].
  destruct (get building "city" (JString "")) as [city|]; cbn [bind];
    [|discriminate].
  intros H. right. split; [reflexivity|]. now exists (street, zip_code, city).
Qed.

End RunFacts.

Section RunSummary.
Context {P : Platform}.

(** The day loop leaves the processing lines alone and adds at most one
    event or warning a day. *)
Lemma days_summary (pool pool_name : json) (loc : json * json * json)
    (today : date) (days : list Z) (out out' : output) :
  for_each (day_step pool pool_name loc today) days out = Return out' ->
  stdout out' = stdout out
  /\ (List.length (cal out') + List.length (stderr out')
      <= List.length (cal out) + List.length (stderr out) + List.length days)%nat.
Proof.
  revert out. induction days as [|i rest IH]; intros out; cbn [for_each].
  - intros [= <-]. split; [reflexivity | simpl; lia].
  - destruct (day_step pool pool_name loc today out i) as [out1|] eqn:Hstep;
      cbn [bind]; [|discriminate].
    intros Hrest. destruct (IH _ Hrest) as [Hstdout Hcount].
    destruct (day_step_adds _ _ _ _ _ _ _ Hstep) as [d [_ [Hs1 Hadd]]].
    split; [congruence|].
    cbn [List.length].
    destruct Hadd as [[Hc He] | [[ev [s [e [_ [_ [Hc He]]]]]] | [Hc He]]];
      rewrite Hc, He in Hcount; rewrite ?length_app in Hcount;
      cbn [List.length] in Hcount; lia.
Qed.

(** The pool loop: one processing line for each pool that is not passed over,
    and at most [DAYS_TO_GENERATE] events and warnings for it. *)
Lemma pools_summary (today : date) (pools : list json) (out out' : output) :
  for_each (pool_step today) pools out = Return out' ->
  stdout out' =
    (stdout out ++ map name_of (filter (fun pool => negb (skipped pool)) pools))%list
  /\ (List.length (cal out') + List.length (stderr out')
      <= List.length (cal out) + List.length (stderr out)
         + DAYS_TO_GENERATE
           * List.length (filter (fun pool => negb (skipped pool)) pools))%nat.
Proof.
  revert out. induction pools as [|pool rest IH]; intros out;
    cbn [for_each filter].
  - intros [= <-]. cbn [map List.length]. rewrite app_nil_r. split; [reflexivity|lia].
  - destruct (pool_step today out pool) as [out1|] eqn:Hstep; cbn [bind];
      [|discriminate].
    intros Hrest. destruct (IH _ Hrest) as [Hstdout Hcount].
    destruct (pool_step_result _ _ _ _ Hstep) as [[Hs ->] | [Hs [loc Hdays]]];
      rewrite Hs; cbn [negb]; [split; assumption|].
    destruct (days_summary _ _ _ _ _ _ _ Hdays) as [Hs1 Hc1].
    cbn [cal stdout stderr] in Hs1, Hc1.
    unfold range in Hc1. rewrite length_map, length_seq in Hc1.
    split.
    + rewrite Hstdout, Hs1. cbn [map]. now rewrite <- app_assoc.
    + cbn [List.length]. lia.
Qed.

Lemma below_snoc (days : list Z) (x : Z) :
  below x days -> below (x + 1) (days ++ [x]).
Proof.
  intros [Hsorted Hbound]. split.
  - induction Hsorted as [|y rest Hrest IH Hy]; cbn [app].
    + repeat constructor.
    + inversion Hbound; subst. constructor; [auto|].
      apply Forall_app. split; [assumption|]. repeat constructor. assumption.
  - apply Forall_app. split.
    + eapply Forall_impl; [|exact Hbound]. intros z Hz. cbn beta in *. lia.
    + repeat constructor. lia.
Qed.

Lemma below_weaken (days : list Z) (b b' : Z) :
  b <= b' -> below b days -> below b' days.
Proof.
  intros Hb [Hsorted Hbound]. split; [assumption|].
  eapply Forall_impl; [|exact Hbound]. intros z Hz. cbn beta in *. lia.
Qed.

(** Over consecutive offsets the day loop keeps the start days of the events,
    and the days of the warnings, ascending. *)
Lemma days_ascending (pool pool_name : json) (loc : json * json * json)
    (today : date) (n a : nat) (out out' : output) :
  for_each (day_step pool pool_name loc today) (map Z.of_nat (seq a n)) out
    = Return out' ->
  below (toordinal today + Z.of_nat a)
    (map (fun event => toordinal (dt_date (dtstart event))) (cal out)) ->
  below (toordinal today + Z.of_nat a)
    (map (fun line => toordinal (snd line)) (stderr out)) ->
  below (toordinal today + Z.of_nat a + Z.of_nat n)
    (map (fun event => toordinal (dt_date (dtstart event))) (cal out'))
  /\ below (toordinal today + Z.of_nat a + Z.of_nat n)
       (map (fun line => toordinal (snd line)) (stderr out')).
Proof.
  revert a out. induction n as [|n IH]; intros a out; cbn [seq map for_each].
  - intros [= <-] Hc He. rewrite Z.add_0_r. auto.
  - destruct (day_step pool pool_name loc today out (Z.of_nat a)) as [out1|]
      eqn:Hstep; cbn [bind]; [|discriminate].
    intros Hrest Hc He.
    replace (toordinal today + Z.of_nat a + Z.of_nat (S n))
      with (toordinal today + Z.of_nat (S a) + Z.of_nat n) by lia.
    apply (IH (S a) out1 Hrest);
      replace (toordinal today + Z.of_nat (S a))
        with (toordinal today + Z.of_nat a + 1) by lia;
      destruct (day_step_adds _ _ _ _ _ _ _ Hstep) as [d [Hd [_ Hadd]]];
      apply date_add_days_ordinal in Hd;
      destruct Hadd as [[Hc1 He1] | [[ev [s [e [_ [Hb [Hc1 He1]]]]]] | [Hc1 He1]]];
      rewrite ?Hc1, ?He1, ?map_app; cbn [map snd];
      try (eapply below_weaken; [|eassumption]; lia).
    + apply build_event_fields in Hb. destruct Hb as [_ [_ [-> _]]].
      rewrite Hd. now apply below_snoc.
    + rewrite Hd. now apply below_snoc.
Qed.

End RunSummary.

(** X12.  The "Processing" lines of a run that ends well name, in input
    order, exactly the pools that neither filter passes over. *)
Theorem processing_lines {P : Platform} (pools : list json) (today : date)
    (out : output) :
  create_calendar (JArray pools) today = Return out ->
  stdout out = map name_of (filter (fun pool => negb (skipped pool)) pools).
Proof.
  unfold create_calendar. cbn [iterate bind]. intros Hrun.
  apply pools_summary in Hrun. now destruct Hrun as [-> _].
Qed.

Lemma processing_lines_witness :
  exists out,
    create_calendar (P := CPython.C_locale)
      (JArray [Scenarios.bath_late; JObject []; Scenarios.bath_B])
      Scenarios.wednesday = Return out
    /\ stdout out = [JString "Leo-Vetter-Bad"; JString "Leo-Vetter-Bad"].
Proof.
  eexists. split; [reflexivity|].
  exact (processing_lines (P := CPython.C_locale)
           [Scenarios.bath_late; JObject []; Scenarios.bath_B]
           Scenarios.wednesday _ eq_refl).
Defined.

(** X13.  A run that ends well holds at most [DAYS_TO_GENERATE] events and
    warnings for each pool that is not passed over. *)
Theorem output_bound {P : Platform} (pools : list json) (today : date)
    (out : output) :
  create_calendar (JArray pools) today = Return out ->
  (List.length (cal out) + List.length (stderr out)
   <= DAYS_TO_GENERATE
      * List.length (filter (fun pool => negb (skipped pool)) pools))%nat.
Proof.
  unfold create_calendar. cbn [iterate bind]. intros Hrun.
  apply pools_summary in Hrun. destruct Hrun as [_ Hcount].
  exact Hcount.
Qed.

Lemma output_bound_witness :
  exists out,
    create_calendar (P := CPython.C_locale)
      (JArray [Scenarios.bath_late; JObject []; Scenarios.bath_B])
      Scenarios.wednesday = Return out
    /\ (List.length (cal out) + List.length (stderr out) <= 28)%nat.
Proof.
  eexists. split; [reflexivity|].
  exact (output_bound (P := CPython.C_locale)
           [Scenarios.bath_late; JObject []; Scenarios.bath_B]
           Scenarios.wednesday _ eq_refl).
Defined.

(** X14.  Every event of a run that ends well was made for one of the pools
    that is not passed over: it carries that pool's name and id, starts on one
    of the [DAYS_TO_GENERATE] days from today, a day on which the pool
    resolves to a pair of times, and ends later the same day or on the
    next. *)
Theorem events_in_window {P : Platform} (pools : list json) (today : date)
    (out : output) :
  create_calendar (JArray pools) today = Return out ->
  forall event, In event (cal out) ->
    exists pool, In pool pools /\ skipped pool = false
                 /\ event_of today pool event.
Proof.
  unfold create_calendar. cbn [iterate bind].
  apply (for_each_invariant (pool_step today)
           (fun o => forall event, In event (cal o) ->
              exists pool, In pool pools /\ skipped pool = false
                           /\ event_of today pool event)).
  2:{ intros event []. }
  intros o pool o' Hpool Ho Hstep.
  destruct (pool_step_result _ _ _ _ Hstep) as [[_ ->] | [Hs [loc Hdays]]];
    [exact Ho|].
  revert Hdays.
  apply (for_each_invariant (day_step pool (name_of pool) loc today)
           (fun o => forall event, In event (cal o) ->
              exists pool, In pool pools /\ skipped pool = false
                           /\ event_of today pool event)).
  2:{ exact Ho. }
  intros o1 i o2 Hi Ho1 Hday event Hin.
  destruct (day_step_adds _ _ _ _ _ _ _ Hday) as [d [Hd [_ Hadd]]].
  destruct Hadd as [[Hc _] | [[ev [s [e [Hh [Hb [Hc _]]]]]] | [Hc _]]];
    rewrite Hc in Hin; try (now apply Ho1).
  apply in_app_or in Hin. destruct Hin as [Hin | [<- | []]];
    [now apply Ho1|].
  exists pool. split; [exact Hpool|]. split; [exact Hs|].
  apply build_event_fields in Hb.
  destruct Hb as [Hsum [_ [Hdate [[id [Hid Huid]] [[ts [Hts Hus]] Hend]]]]].
  apply date_add_days_ordinal in Hd. apply in_range in Hi.
  unfold event_of. rewrite Hdate.
  repeat apply conj.
  - exact Hsum.
  - exists id. now split.
  - lia.
  - lia.
  - exists s, e, ts. auto.
  - exact Hend.
Qed.

Lemma events_in_window_witness :
  exists out,
    create_calendar (P := CPython.C_locale)
      (JArray [Scenarios.bath_late; JObject []; Scenarios.bath_B])
      Scenarios.wednesday = Return out
    /\ forall event, In event (cal out) ->
         exists pool,
           In pool [Scenarios.bath_late; JObject []; Scenarios.bath_B]
           /\ skipped pool = false
           /\ event_of (P := CPython.C_locale) Scenarios.wednesday pool event.
Proof.
  eexists. split; [reflexivity|].
  exact (events_in_window (P := CPython.C_locale)
           [Scenarios.bath_late; JObject []; Scenarios.bath_B]
           Scenarios.wednesday _ eq_refl).
Defined.

(** X15.  Within one pool the events come in ascending order of their start
    day, no two on the same day, and so do the warnings. *)
Theorem pool_dates_ascending {P : Platform} (today : date) (pool : json)
    (out : output) :
  pool_step today no_output pool = Return out ->
  StronglySorted Z.lt
    (map (fun event => toordinal (dt_date (dtstart event))) (cal out))
  /\ StronglySorted Z.lt (map (fun line => toordinal (snd line)) (stderr out)).
Proof.
  intros Hstep.
  destruct (pool_step_result _ _ _ _ Hstep) as [[_ ->] | [_ [loc Hdays]]].
  - split; constructor.
  - unfold range in Hdays.
    destruct (days_ascending _ _ _ _ _ _ _ _ Hdays) as [[Hc _] [He _]];
      try (split; constructor).
    now split.
Qed.

Lemma pool_dates_ascending_witness :
  exists out,
    pool_step (P := CPython.C_locale) Scenarios.wednesday no_output
      Scenarios.bath_B = Return out
    /\ StronglySorted Z.lt
         (map (fun event => toordinal (dt_date (dtstart event))) (cal out)).
Proof.
  eexists. split; [reflexivity|].
  exact (proj1 (pool_dates_ascending (P := CPython.C_locale)
                  Scenarios.wednesday Scenarios.bath_B _ eq_refl)).
Defined.

(** X16.  When the two times get the same UTC offset, the event starts and
    ends at the window's times of day; a close at or before the open puts the
    end on the next civil day, and the event lasts a day less the gap (a full
    day when the two times are equal); a close after the open keeps the end on
    the same day, and the event lasts the gap. *)
Theorem event_span_same_offset {P : Platform} (pool pool_name id : json)
    (loc : json * json * json) (d : date) (start_str end_str : json)
    (opening closing : time) :
  time_fromisoformat start_str = Return opening ->
  time_fromisoformat end_str = Return closing ->
  time_tzinfo opening = None ->
  time_tzinfo closing = None ->
  localize_utcoffset d (time_us opening) = localize_utcoffset d (time_us closing) ->
  1 <= toordinal d < MAXORDINAL ->
  subscript pool "id" = Return id ->
  exists event,
    build_event pool pool_name loc d start_str end_str = Return event
    /\ dt_date (dtstart event) = d
    /\ dt_us (dtstart event) = time_us opening
    /\ dt_us (dtend event) = time_us closing
    /\ (time_us closing <= time_us opening ->
        dt_date (dtend event) = mkdate (toordinal d + 1)
        /\ datetime_sub (dtend event) (dtstart event)
           = US_PER_DAY - (time_us opening - time_us closing))
    /\ (time_us opening < time_us closing ->
        dt_date (dtend event) = d
        /\ datetime_sub (dtend event) (dtstart event)
           = time_us closing - time_us opening).
Proof.
  intros Hs He Hzs Hze Hoff Hd Hid.
  unfold build_event, localize. rewrite Hs. cbn [bind]. rewrite He. cbn [bind].
  rewrite Hzs. cbn [bind]. rewrite Hze. cbn [bind].
  unfold datetime_le, utc_instant. cbn [dt_date dt_us dt_utcoffset].
  rewrite Hoff.
  destruct (Z.leb_spec
              (toordinal d * US_PER_DAY + time_us closing
               - localize_utcoffset d (time_us closing))
              (toordinal d * US_PER_DAY + time_us opening
               - localize_utcoffset d (time_us closing))) as [Hle | Hgt].
  - unfold datetime_add_day, date_add_days. cbn [dt_date dt_us dt_utcoffset].
    replace ((1 <=? toordinal d + 1) && (toordinal d + 1 <=? MAXORDINAL))%bool
      with true
      by (symmetry; apply andb_true_intro; split; apply Z.leb_le; lia).
    cbn [bind]. rewrite Hid. cbn [bind].
    eexists. split; [reflexivity|].
    cbn [dtstart dtend dt_date dt_us dt_utcoffset].
    repeat apply conj; try reflexivity.
    + intros _. split; [reflexivity|].
      unfold datetime_sub, utc_instant.
      cbn [dt_date dt_us dt_utcoffset toordinal]. lia.
    + intros Hlt. lia.
  - cbn [bind]. rewrite Hid. cbn [bind].
    eexists. split; [reflexivity|].
    cbn [dtstart dtend dt_date dt_us dt_utcoffset].
    repeat apply conj; try reflexivity.
    + intros Hle. lia.
    + intros _. split; [reflexivity|].
      unfold datetime_sub, utc_instant.
      cbn [dt_date dt_us dt_utcoffset]. lia.
Qed.

Lemma event_span_same_offset_witness :
  exists event,
    build_event (P := CPython.C_locale) Scenarios.bath_B Scenarios.name
      Scenarios.address Scenarios.monday (JString "06:30") (JString "21:00")
    = Return event
    /\ dt_date (dtend event) = Scenarios.monday
    /\ datetime_sub (dtend event) (dtstart event) = 52200000000.
Proof.
  assert (Hday : 1 <= toordinal Scenarios.monday < MAXORDINAL)
    by (unfold MAXORDINAL; simpl; lia).
  destruct (event_span_same_offset (P := CPython.C_locale)
              Scenarios.bath_B Scenarios.name (JInt 7) Scenarios.address
              Scenarios.monday (JString "06:30") (JString "21:00")
              (mktime 23400000000 None) (mktime 75600000000 None)
              eq_refl eq_refl eq_refl eq_refl eq_refl Hday eq_refl)
    as [event [Hrun [_ [_ [_ [_ Hsame]]]]]].
  exists event. split; [exact Hrun|]. exact (Hsame eq_refl).
Defined.

Lemma bad_time_string_skipped_witness :
  day_step (P := CPython.C_locale) Scenarios.bath_late Scenarios.name
    Scenarios.address Scenarios.wednesday no_output 0
  = Return (mkoutput [] [] [(Scenarios.name, Scenarios.wednesday)]).
Proof.
  apply (bad_time_string_skipped (P := CPython.C_locale) Scenarios.bath_late
           Scenarios.name Scenarios.address Scenarios.wednesday
           Scenarios.wednesday no_output 0 (JString "08:00") (JString "late"));
    try reflexivity.
  right. exists (mktime 28800000000 None). split; reflexivity.
Defined.

Lemma non_string_time_aborts_witness :
  day_step (P := CPython.C_locale) Scenarios.bath_null_close Scenarios.name
    Scenarios.address Scenarios.wednesday no_output 0
  = Raise TypeError.
Proof.
  apply (non_string_time_aborts (P := CPython.C_locale) Scenarios.bath_null_close
           Scenarios.name Scenarios.address Scenarios.wednesday
           Scenarios.wednesday no_output 0 (JString "08:00") JNull);
    try reflexivity.
  right. exists (mktime 28800000000 None). split; reflexivity.
Defined.

(** X19.  A pool without an ['id'] stops the run with [KeyError] on its first
    open day with sound times: the key is read only when an event is made. *)
Theorem missing_id_aborts {P : Platform} (pool pool_name : json)
    (loc : json * json * json) (today d : date) (out : output) (i : Z)
    (start_str end_str : json) (opening closing : time) :
  date_add_days today i = Return d ->
  get_opening_hours pool d = Return (Some (start_str, end_str)) ->
  time_fromisoformat start_str = Return opening ->
  time_fromisoformat end_str = Return closing ->
  time_tzinfo opening = None ->
  time_tzinfo closing = None ->
  toordinal d < MAXORDINAL ->
  subscript pool "id" = Raise KeyError ->
  day_step pool pool_name loc today out i = Raise KeyError.
Proof.
  intros Hd Hh Hs He Hzs Hze Hmax Hid.
  assert (Hmin : 1 <= toordinal d).
  { unfold date_add_days in Hd.
    destruct ((1 <=? toordinal today + i)
              && (toordinal today + i <=? MAXORDINAL))%bool eqn:Hc;
      [|discriminate].
    injection Hd as <-. apply andb_prop in Hc. destruct Hc as [Hc _].
    apply Z.leb_le in Hc. exact Hc. }
  unfold day_step. rewrite Hd. cbn [bind]. rewrite Hh. cbn [bind].
  unfold build_event, localize. rewrite Hs. cbn [bind]. rewrite He. cbn [bind].
  rewrite Hzs. cbn [bind]. rewrite Hze. cbn [bind].
  destruct (datetime_le _ _).
  - unfold datetime_add_day, date_add_days. cbn [dt_date dt_us dt_utcoffset].
    replace ((1 <=? toordinal d + 1) && (toordinal d + 1 <=? MAXORDINAL))%bool
      with true
      by (symmetry; apply andb_true_intro; split; apply Z.leb_le; lia).
    cbn [bind]. now rewrite Hid.
  - cbn [bind]. now rewrite Hid.
Qed.

Lemma missing_id_aborts_witness :
  day_step (P := CPython.C_locale) Scenarios.bath_no_id Scenarios.name
    Scenarios.address Scenarios.wednesday no_output 0
  = Raise KeyError.
Proof.
  apply (missing_id_aborts (P := CPython.C_locale) Scenarios.bath_no_id
           Scenarios.name Scenarios.address Scenarios.wednesday
           Scenarios.wednesday no_output 0 (JString "06:00") (JString "22:00")
           (mktime 21600000000 None) (mktime 79200000000 None));
    reflexivity.
Defined.

(** X20.  What a response that is not a list of dicts does to the run: a
    value no loop can run over raises [TypeError]; a list that starts with
    something other than a dict, a dict with at least one key and a text with
    at least one character raise [AttributeError]; an empty list, dict or text
    gives an empty calendar. *)
Theorem malformed_response {P : Platform} (today : date) :
  (forall pools, iterable pools = false ->
     create_calendar pools today = Raise TypeError)
  /\ (forall pool rest, is_object pool = false ->
        create_calendar (JArray (pool :: rest)) today = Raise AttributeError)
  /\ (forall field fields,
        create_calendar (JObject (field :: fields)) today = Raise AttributeError)
  /\ (forall c s,
        create_calendar (JString (String c s)) today = Raise AttributeError)
  /\ create_calendar (JArray []) today = Return no_output
  /\ create_calendar (JObject []) today = Return no_output
  /\ create_calendar (JString "") today = Return no_output.
Proof.
  repeat apply conj; try reflexivity.
  - intros pools Hiter. unfold create_calendar, iterable in *.
    destruct (iterate pools) as [items|x] eqn:Hi; [discriminate|].
    now rewrite (iterate_raises _ _ Hi).
  - intros pool rest Hshape. unfold create_calendar. cbn [iterate bind for_each].
    unfold pool_step. destruct pool; try reflexivity. discriminate.
Qed.

Lemma malformed_response_witness :
  create_calendar (P := CPython.C_locale) (JArray [JNull; Scenarios.bath_B])
    Scenarios.wednesday = Raise AttributeError.
Proof.
  apply (proj1 (proj2 (malformed_response (P := CPython.C_locale)
                         Scenarios.wednesday))).
  reflexivity.
Defined.
